(** * Game-Popularity-Prediction-Model v2: collection and aggregation

    A shallow embedding of [src/aggregator.py] (DataAggregator), of the
    rate limiting and retry code of the connectors
    ([src/connectors/*.py]) and of the row building of
    [src/data_collector.py]; of the Steam connector's cache and request
    statistics, the Twitch token, game id and viewership requests, and
    the Reddit and YouTube replies of [src/external_data_collector.py]
    as they reach the collected rows.

    Conventions:
    - pandas timestamps are nanoseconds since the epoch ([Z]);
    - numbers read from CSV files are rationals ([Q]); NaN, NaT, None and
      pd.NA are the single cell [NA];
    - time.time() in the connectors is an integer clock in milliseconds
      ([Z]); time.sleep(d) advances it by d. *)

From Stdlib Require Import ZArith QArith List String Bool Lia.
Import ListNotations.
Open Scope string_scope.

(* ------------------------------------------------------------------ *)
(** ** Python dictionaries as association lists (insertion ordered). *)

Module Dict.

Definition dict (V : Type) := list (string * V).

Fixpoint get {V} (d : dict V) (k : string) : option V :=
  match d with
  | [] => None
  | (k', v) :: d' => if String.eqb k k' then Some v else get d' k
  end.

(** [d[k] = v]: overwrite in place if present, else append. *)
Fixpoint set {V} (d : dict V) (k : string) (v : V) : dict V :=
  match d with
  | [] => [(k, v)]
  | (k', v') :: d' =>
      if String.eqb k k' then (k', v) :: d' else (k', v') :: set d' k v
  end.

Definition keys {V} (d : dict V) : list string := map fst d.

Definition has_key {V} (d : dict V) (k : string) : bool :=
  existsb (String.eqb k) (keys d).

(** [d.update(e)]. *)
Definition update {V} (d e : dict V) : dict V :=
  fold_left (fun acc kv => set acc (fst kv) (snd kv)) e d.

End Dict.

(* ------------------------------------------------------------------ *)
(** ** DataAggregator (src/aggregator.py) *)

Module Agg.

Import Dict.

(** A DataFrame cell. [NA] stands for NaN / NaT / None / pd.NA. *)
Inductive cell : Type :=
| NA
| Num (q : Q)
| Time (t : Z)
| Str (s : string).

Definition is_na (c : cell) : bool :=
  match c with NA => true | _ => false end.

(** A DataFrame: its column labels and its rows, each row a mapping from
    column label to cell. *)
Record frame : Type := mkFrame {
  columns : list string;
  rows : list (dict cell)
}.

(** [df[col]] at one row; a label absent from the row reads as NA. *)
Definition at_ (r : dict cell) (col : string) : cell :=
  match get r col with Some c => c | None => NA end.

(** [merged_data.empty]: no rows or no columns. *)
Definition empty (df : frame) : bool :=
  match columns df, rows df with
  | [], _ => true
  | _, [] => true
  | _, _ => false
  end.

Definition ensure_cols : list string :=
  ["app_id"; "name"; "timestamp"; "release_date"].

Definition metric_cols : list string :=
  ["player_count"; "twitch_viewer_count"; "google_trends_avg";
   "reddit_subscribers"; "reddit_active_users"; "reddit_recent_posts";
   "twitter_recent_count"; "metacritic_score"].

Definition DAY_NS : Z := 86400 * 1000000000.

Section Prepare.

(** The string parsers of pandas (to_datetime and to_numeric with
    errors='coerce'); [None] is an unparseable string. *)
Variable parse_datetime : string -> option Z.
Variable parse_numeric : string -> option Q.

(** [merged_data[col] = pd.NA] for an absent column. *)
Definition add_missing (df : frame) (col : string) : frame :=
  if existsb (String.eqb col) (columns df) then df
  else mkFrame ((columns df ++ [col])%list) (map (fun r => set r col NA) (rows df)).

(** [pd.to_datetime(x, errors='coerce')] on one cell; numbers are epoch
    nanoseconds, truncated. *)
Definition to_datetime (c : cell) : cell :=
  match c with
  | NA => NA
  | Time t => Time t
  | Num q => Time (Z.quot (Qnum q) (Zpos (Qden q)))
  | Str s => match parse_datetime s with Some t => Time t | None => NA end
  end.

(** [pd.to_numeric(x, errors='coerce')] on one cell. *)
Definition to_numeric (c : cell) : cell :=
  match c with
  | NA => NA
  | Num q => Num q
  | Time t => Num (inject_Z t)
  | Str s => match parse_numeric s with Some q => Num q | None => NA end
  end.

(** [merged_data[col] = f(merged_data[col])]. *)
Definition map_col (f : cell -> cell) (df : frame) (col : string) : frame :=
  mkFrame (columns df) (map (fun r => set r col (f (at_ r col))) (rows df)).

(** [merged_data.dropna(subset=['app_id', 'timestamp'], inplace=True)]. *)
Definition dropna_app_ts (df : frame) : frame :=
  mkFrame (columns df)
    (filter (fun r => negb (is_na (at_ r "app_id")) &&
                      negb (is_na (at_ r "timestamp"))) (rows df)).

(** Lines 107-120: the in-place preparation of the caller's frame. *)
Definition prepare (df : frame) : frame :=
  let df1 := fold_left add_missing (ensure_cols ++ metric_cols) df in
  let df2 := map_col to_datetime df1 "timestamp" in
  let df3 := map_col to_datetime df2 "release_date" in
  let df4 := fold_left (map_col to_numeric) metric_cols df3 in
  dropna_app_ts df4.

End Prepare.

(** ** Grouping: [merged_data.groupby('app_id')]. *)

Definition cell_eqb (a b : cell) : bool :=
  match a, b with
  | NA, NA => true
  | Num x, Num y => Qeq_bool x y
  | Time x, Time y => Z.eqb x y
  | Str x, Str y => String.eqb x y
  | _, _ => false
  end.

Definition cell_rank (c : cell) : nat :=
  match c with NA => 0 | Num _ => 1 | Time _ => 2 | Str _ => 3 end.

(** The order in which groupby (sort=True) lists its keys. *)
Definition cell_leb (a b : cell) : bool :=
  match a, b with
  | Num x, Num y => Qle_bool x y
  | Time x, Time y => Z.leb x y
  | Str x, Str y => String.leb x y
  | _, _ => Nat.leb (cell_rank a) (cell_rank b)
  end.

Fixpoint insert_key (k : cell) (ks : list cell) : list cell :=
  match ks with
  | [] => [k]
  | k' :: ks' =>
      if cell_eqb k k' then ks
      else if cell_leb k k' then k :: ks
      else k' :: insert_key k ks'
  end.

(** The distinct group keys, sorted. *)
Definition group_keys (rs : list (dict cell)) : list cell :=
  fold_left (fun ks r => insert_key (at_ r "app_id") ks) rs [].

(** The rows of one group, in their order in the frame. *)
Definition group_of (rs : list (dict cell)) (k : cell) : list (dict cell) :=
  filter (fun r => cell_eqb (at_ r "app_id") k) rs.

Definition groupby_app_id (rs : list (dict cell)) : list (cell * list (dict cell)) :=
  map (fun k => (k, group_of rs k)) (group_keys rs).

(** ** Series reductions *)

Definition col (g : list (dict cell)) (c : string) : list cell :=
  map (fun r => at_ r c) g.

(** [s.dropna().iloc[-1] if not s.dropna().empty else None]. *)
Fixpoint last_valid (s : list cell) : cell :=
  match s with
  | [] => NA
  | c :: s' => match last_valid s' with NA => c | v => v end
  end.

Fixpoint nums (s : list cell) : list Q :=
  match s with
  | [] => []
  | Num q :: s' => q :: nums s'
  | _ :: s' => nums s'
  end.

Definition Qsum (l : list Q) : Q := fold_right Qplus 0%Q l.

(** [s.mean(skipna=True)]: NaN on an empty or all-NaN slice. *)
Definition mean_skipna (s : list cell) : cell :=
  match nums s with
  | [] => NA
  | l => Num (Qsum l / inject_Z (Z.of_nat (List.length l)))
  end.

Fixpoint Qmax_list (m : Q) (l : list Q) : Q :=
  match l with
  | [] => m
  | q :: l' => Qmax_list (if Qle_bool m q then q else m) l'
  end.

(** [s.max(skipna=True)]: NaN on an empty or all-NaN slice. *)
Definition max_skipna (s : list cell) : cell :=
  match nums s with
  | [] => NA
  | q :: l => Num (Qmax_list q l)
  end.

(** ** Time windows (lines 141-149) *)

Definition ts_of (r : dict cell) : option Z :=
  match at_ r "timestamp" with Time t => Some t | _ => None end.

(** [(group['timestamp'] >= lo) & (group['timestamp'] < hi)]; a NaT
    compares false. *)
Definition in_window (lo hi : Z) (r : dict cell) : bool :=
  match ts_of r with Some t => Z.leb lo t && Z.ltb t hi | None => false end.

Definition window (lo hi : Z) (g : list (dict cell)) : list (dict cell) :=
  filter (in_window lo hi) g.

Definition pre_release_data (rd pre : Z) g := window (rd - pre * DAY_NS) rd g.
Definition post_launch_data_peak (rd peak : Z) g := window rd (rd + peak * DAY_NS) g.
Definition post_launch_data_avg (rd avg : Z) g := window rd (rd + avg * DAY_NS) g.

(** ** Chronological order of rows (load_merged_data sorts by
    timestamp, NaT last). *)

Definition ts_leb (r1 r2 : dict cell) : bool :=
  match ts_of r1, ts_of r2 with
  | Some a, Some b => Z.leb a b
  | _, None => true
  | None, Some _ => false
  end.

(** Every row is at most every later row in timestamp order. *)
Fixpoint ts_sorted (rs : list (dict cell)) : bool :=
  match rs with
  | [] => true
  | r :: rs' => forallb (ts_leb r) rs' && ts_sorted rs'
  end.

(** ** Result rows *)

Fixpoint digits (fuel : nat) (n : Z) (acc : string) : string :=
  match fuel with
  | O => acc
  | S f =>
      let d := Z.to_nat (n mod 10) in
      let acc' := String (Ascii.ascii_of_nat (48 + d)) acc in
      if Z.ltb n 10 then acc' else digits f (n / 10) acc'
  end.

(** [str(n)] for a Python int. *)
Definition string_of_Z (n : Z) : string :=
  if Z.ltb n 0 then "-" ++ digits 64 (- n) "" else digits 64 n "".

(** [str(app_id)] for an integral id (the ids are Steam app ids). *)
Definition repr_cell (c : cell) : string :=
  match c with
  | NA => "nan"
  | Num q => if Pos.eqb (Qden q) 1 then string_of_Z (Qnum q)
             else string_of_Z (Qnum q) ++ "/" ++ string_of_Z (Zpos (Qden q))
  | Time t => string_of_Z t
  | Str s => s
  end.

Definition pre_release_features (pd : list (dict cell)) : dict cell :=
  [("google_trends_avg_pre", mean_skipna (col pd "google_trends_avg"));
   ("reddit_posts_avg_pre", mean_skipna (col pd "reddit_recent_posts"));
   ("twitter_count_avg_pre", mean_skipna (col pd "twitter_recent_count"));
   ("reddit_subs_pre", last_valid (col pd "reddit_subscribers"));
   ("reddit_active_pre", last_valid (col pd "reddit_active_users"))].

Definition post_launch_outcomes (peak avg : Z)
    (pk av : list (dict cell)) : dict cell :=
  [("steam_peak_players_" ++ string_of_Z peak ++ "d", max_skipna (col pk "player_count"));
   ("twitch_peak_viewers_" ++ string_of_Z peak ++ "d", max_skipna (col pk "twitch_viewer_count"));
   ("steam_avg_players_" ++ string_of_Z avg ++ "d", mean_skipna (col av "player_count"));
   ("twitch_avg_viewers_" ++ string_of_Z avg ++ "d", mean_skipna (col av "twitch_viewer_count"))].

(** The body of the [for app_id, group in grouped] loop (lines 129-188):
    [None] is the [continue] of a game without release date. The
    NaN-to-None pass of line 187 is the identity here, NaN and None
    being the single cell [NA]. *)
Definition game_row (pre peak avg : Z) (app_id : cell) (g : list (dict cell))
    : option (dict cell) :=
  let game_name :=
    match last_valid (col g "name") with
    | NA => Str ("Unknown Game (ID: " ++ repr_cell app_id ++ ")")
    | n => n
    end in
  match last_valid (col g "release_date") with
  | Time rd =>
      let pr := pre_release_data rd pre g in
      let pk := post_launch_data_peak rd peak g in
      let av := post_launch_data_avg rd avg g in
      Some ([("app_id", app_id); ("game_name", game_name);
             ("release_date", Time rd);
             ("metacritic_score", last_valid (col g "metacritic_score"))]
            ++ pre_release_features pr
            ++ post_launch_outcomes peak avg pk av)%list
  | _ => None  (* pd.isna(release_date): skipped *)
  end.

(** [DataAggregator.aggregate_features]: the output rows and the caller's
    frame as it is after the call (the frame is mutated in place). *)
Definition aggregate_features
    (parse_datetime : string -> option Z) (parse_numeric : string -> option Q)
    (merged_data : frame) (pre peak avg : Z)
    : list (dict cell) * frame :=
  if empty merged_data then ([], merged_data)
  else
    let df := prepare parse_datetime parse_numeric merged_data in
    let out := flat_map (fun kg => match game_row pre peak avg (fst kg) (snd kg) with
                                   | Some r => [r] | None => [] end)
                        (groupby_app_id (rows df)) in
    (out, df).

End Agg.

(* ------------------------------------------------------------------ *)
(** ** Rate limiting (ExternalDataCollector.get_twitter_data, lines
    559-621; SteamAPIConnector._rate_limit_request and
    TwitchAPIConnector._rate_limit_request) *)

Module Governor.

Local Open Scope Z_scope.

(** The Twitter rate-limit fields of ExternalDataCollector. *)
Record tw_state : Type := mkTw {
  twitter_last_api_call_time : Z;
  twitter_is_in_cooldown : bool;
  twitter_cooldown_until : Z
}.

(** Lines 67-75 (milliseconds). *)
Definition twitter_min_interval : Z := 15 * 1000.
Definition twitter_rate_limit_cooldown : Z := (15 * 60 + 15) * 1000.
Definition tw_init : tw_state := mkTw 0 false 0.

(** The response of get_recent_tweets_count: its meta (absent or empty
    when [None]) with the total count if the meta has one, and whether
    it carries errors. *)
Record tw_response : Type := mkResp {
  resp_meta : option (option Z);
  resp_errors : bool
}.

(** How the wrapped platform call ends. *)
Inductive tw_outcome : Type :=
| TwResponse (r : option tw_response)   (* returns (None: a falsy response) *)
| TwTooManyRequests                     (* tweepy.errors.TooManyRequests *)
| TwOtherError.                         (* any other exception *)

(** Lines 603-613: the recent_tweet_count of a returned response. *)
Definition tweet_count (r : option tw_response) : option Z :=
  match r with
  | Some (mkResp (Some (Some n)) _) => Some n
  | Some (mkResp _ true) => None
  | Some (mkResp (Some None) false) => Some 0
  | _ => Some 0
  end.

(** One call of get_twitter_data with the client initialised, entered at
    clock [now]; the platform call takes [lat] ms and ends with [o].
    Returns the recent_tweet_count, the new state, the clock on return
    and the clock at which the platform call started (line 584). *)
Definition get_twitter_data (st : tw_state) (now : Z) (lat : N) (o : tw_outcome)
    : option Z * tw_state * Z * Z :=
  let current_time := now in
  (* lines 565-574: cooldown *)
  let '(clk, cd) :=
    if twitter_is_in_cooldown st && (current_time <? twitter_cooldown_until st)
    then (current_time + (twitter_cooldown_until st - current_time), false)
    else if twitter_is_in_cooldown st then (current_time, false)
    else (current_time, twitter_is_in_cooldown st) in
  (* lines 577-581: proactive delay, from the time read at entry *)
  let time_since_last_call := current_time - twitter_last_api_call_time st in
  let clk := if time_since_last_call <? twitter_min_interval
             then clk + (twitter_min_interval - time_since_last_call) else clk in
  (* line 584 *)
  let start := clk in
  let clk := clk + Z.of_N lat in
  match o with
  | TwResponse r =>
      (tweet_count r, mkTw start false (twitter_cooldown_until st), clk, start)
  | TwTooManyRequests =>
      (None, mkTw start true (clk + twitter_rate_limit_cooldown), clk, start)
  | TwOtherError =>
      (None, mkTw start cd (twitter_cooldown_until st), clk, start)
  end.

(** A request of a sequence: the idle time since the previous call
    returned, the latency of the platform call and its outcome. *)
Definition tw_request : Type := (N * N * tw_outcome)%type.

(** One platform call of a run: its start, its outcome and the state the
    governor is left in. *)
Record tw_event : Type := mkEv {
  ev_start : Z;
  ev_outcome : tw_outcome;
  ev_state : tw_state
}.

(** Successive calls through one ExternalDataCollector. Without a client
    (line 559) no platform call is made. *)
Fixpoint twitter_run (client : bool) (st : tw_state) (clk : Z)
    (rs : list tw_request) : list tw_event :=
  match rs with
  | [] => []
  | (gap, lat, o) :: rs' =>
      if client then
        let '(_, st', clk', start) := get_twitter_data st (clk + Z.of_N gap) lat o in
        mkEv start o st' :: twitter_run client st' clk' rs'
      else twitter_run client st (clk + Z.of_N gap) rs'
  end.

(** The simple governor of the Steam and Twitch connectors: returns the
    clock at which the request starts (the new last_request_time). *)
Definition rate_limit_request (request_delay last_request_time now : Z) : Z :=
  let time_since_last_request := now - last_request_time in
  if time_since_last_request <? request_delay
  then now + (request_delay - time_since_last_request) else now.

(** [spaced m l]: each element of [l] is at least [m] after the previous. *)
Fixpoint spaced (m : Z) (l : list Z) : Prop :=
  match l with
  | a :: ((b :: _) as l') => a + m <= b /\ spaced m l'
  | _ => True
  end.

Definition steam_request_delay : Z := 1000.
Definition twitch_request_delay : Z := 500.

(** Successive governed requests: idle gap before each, then the time the
    request takes once started. Returns the start clocks. *)
Fixpoint simple_run (request_delay last clk : Z) (rs : list (N * N)) : list Z :=
  match rs with
  | [] => []
  | (gap, lat) :: rs' =>
      let start := rate_limit_request request_delay last (clk + Z.of_N gap) in
      start :: simple_run request_delay start (start + Z.of_N lat) rs'
  end.

End Governor.

(* ------------------------------------------------------------------ *)
(** ** Python values handled by the collectors *)

Module Py.

(** A Python value as far as the collectors inspect it (JSON replies,
    the dicts of the connectors, the cells of a collected row). *)
#[warnings="-register-all"]
Inductive pyval : Type :=
| PNone
| PBool (b : bool)
| PNum (q : Q)
| PStr (s : string)
| PList (l : list pyval)
| PDict (d : list (string * pyval)).

(** Truthiness ([if v:]). *)
Definition truthy (v : pyval) : bool :=
  match v with
  | PNone => false
  | PBool b => b
  | PNum q => negb (Qeq_bool q 0)
  | PStr s => negb (String.eqb s "")
  | PList l => match l with [] => false | _ => true end
  | PDict d => match d with [] => false | _ => true end
  end.

(** [k in v] for a dict [v] (false for any other value). *)
Definition pin (k : string) (v : pyval) : bool :=
  match v with PDict d => Dict.has_key d k | _ => false end.

(** [v.get(k, default)]; a value that is not a dict gives [default]. *)
Definition dget_def (v : pyval) (k : string) (default : pyval) : pyval :=
  match v with
  | PDict d => match Dict.get d k with Some x => x | None => default end
  | _ => default
  end.

(** [v.get(k)]. *)
Definition dget (v : pyval) (k : string) : pyval := dget_def v k PNone.

(** [d.get(k)] on a dict of the program. *)
Definition sget (d : Dict.dict pyval) (k : string) : pyval :=
  match Dict.get d k with Some x => x | None => PNone end.

End Py.

(* ------------------------------------------------------------------ *)
(** ** Request retries of the connectors *)

Module Retry.

Import Py.

(** How one requests.get ends: a response with its status code and JSON
    body, or a RequestException raised by the call (connection error,
    timeout). *)
Inductive http : Type :=
| Response (status_code : Z) (json : pyval)
| ConnectionError.

(** Whether the attempt raises a RequestException: from requests.get, or
    from raise_for_status on a 4xx or 5xx status. *)
Definition request_fails (h : http) : bool :=
  match h with
  | ConnectionError => true
  | Response c _ => (400 <=? c)%Z && (c <? 600)%Z
  end.

Definition json_of (h : http) : pyval :=
  match h with Response _ j => j | ConnectionError => PNone end.

(** SteamAPIConnector._make_request, lines 96-110: the loop over
    [range(max_retries)]; [get i] is how the request of attempt [i] ends.
    Returns the value returned ([{}] after the last failure, [None] when
    the loop is empty) and the number of requests made. The sleeps of the
    backoff do not change the outcome. *)
Fixpoint steam_attempts (max_retries : nat) (get : nat -> http) (attempts : list nat)
    : pyval * nat :=
  match attempts with
  | [] => (PNone, 0%nat)
  | attempt :: rest =>
      let response := get attempt in
      if request_fails response then
        if (attempt <? max_retries - 1)%nat then
          let '(r, n) := steam_attempts max_retries get rest in (r, S n)
        else (PDict [], 1%nat)
      else (json_of response, 1%nat)
  end.

Definition steam_make_request (get : nat -> http) : pyval * nat :=
  let max_retries := 3%nat in
  steam_attempts max_retries get (seq 0 max_retries).

(** SteamAPIConnector.get_current_player_count, lines 175-183. A
    ['response'] that is not an object is read as one without
    ['player_count']. *)
Definition get_current_player_count (get : nat -> http) : pyval :=
  let response := fst (steam_make_request get) in
  if truthy response && pin "response" response
     && pin "player_count" (dget response "response")
  then dget (dget response "response") "player_count"
  else PNum 0.

Definition unauthorized (h : http) : bool :=
  match h with
  | Response c _ => (c =? 401)%Z || (c =? 403)%Z
  | ConnectionError => false
  end.

(** TwitchAPIConnector._make_request, lines 100-123 (after the token
    check): [get k] is how the [k]-th requests.get of the call ends and
    [refresh k] whether the forced _get_access_token obtains a token after
    [k] requests. Returns the value returned ([PNone] for None) and the
    number of requests made. *)
Fixpoint twitch_attempts (max_retries : nat) (get : nat -> http)
    (refresh : nat -> bool) (k : nat) (attempts : list nat) : pyval * nat :=
  match attempts with
  | [] => (PNone, k)
  | attempt :: rest =>
      let response := get k in
      let k := S k in
      if unauthorized response && negb (refresh k) then (PNone, k)
      else
        let '(response, k) :=
          if unauthorized response then (get k, S k) else (response, k) in
        if request_fails response then
          if (attempt <? max_retries - 1)%nat then
            twitch_attempts max_retries get refresh k rest
          else (PNone, k)
        else (json_of response, k)
  end.

(** Lines 85-99: no request without a token. *)
Definition twitch_make_request (token : bool) (get : nat -> http)
    (refresh : nat -> bool) : pyval * nat :=
  if negb token then (PNone, 0%nat)
  else
    let max_retries := 3%nat in
    twitch_attempts max_retries get refresh 0 (seq 0 max_retries).

(** How one build_payload / interest_over_time of pytrends ends: a frame
    (its columns and the values of the keyword column), or an exception
    whose message does or does not contain 'response code 429'. *)
Inductive trends_call : Type :=
| TrendsFrame (columns : list string) (values : list Q)
| TrendsError (is_rate_limit : bool).

(** The frame returned: columns and keyword values. *)
Definition trends_frame : Type := (list string * list Q)%type.

(** ExternalDataCollector.get_google_trends_interest, lines 431-458: the
    while loop; [call i] is how the [i]-th request ends ([attempt] counts
    the requests made so far). Returns the frame (None for None) and the
    number of requests made. *)
Fixpoint trends_loop (fuel retries attempt : nat) (call : nat -> trends_call)
    : option trends_frame * nat :=
  match fuel with
  | O => (None, 0%nat)
  | S fuel' =>
      if (attempt <=? retries)%nat then
        match call attempt with
        | TrendsFrame cols vals =>
            (Some (filter (fun c => negb (String.eqb c "isPartial")) cols, vals), 1%nat)
        | TrendsError is_rate_limit =>
            if is_rate_limit && (attempt <? retries)%nat then
              let '(r, n) := trends_loop fuel' retries (S attempt) call in (r, S n)
            else (None, 1%nat)
        end
      else (None, 0%nat)
  end.

Definition get_google_trends_interest (client : bool) (retries : nat)
    (call : nat -> trends_call) : option trends_frame * nat :=
  if negb client then (None, 0%nat)
  else trends_loop (S retries) retries 0 call.

End Retry.

(* ------------------------------------------------------------------ *)
(** ** ExternalDataCollector.collect_external_signals *)

Module Orchestrator.

Import Dict Py Retry.
Local Open Scope Z_scope.

(** How an invoked connector method ends. *)
Inductive outcome (A : Type) : Type :=
| Raises
| Returns (a : A).
Arguments Raises {A}.
Arguments Returns {A} a.

(** The four connector methods of one game: the time each takes (ms) and
    how it ends. *)
Record game_calls : Type := mkCalls {
  trends_call_of : N * outcome (option trends_frame);
  reddit_call : N * outcome pyval;
  twitter_call : N * outcome pyval;
  youtube_call : N * outcome pyval
}.

(** A signal block: its check passed at the given elapsed time, or it was
    skipped at it. *)
Inductive step : Type :=
| Ran (elapsed : Z)
| Skipped (elapsed : Z).

Definition step_elapsed (s : step) : Z :=
  match s with Ran e | Skipped e => e end.

(** check_timeout, lines 289-297: returns whether to skip and the new
    [timed_out_for_game]. *)
Definition check_timeout (timeout game_start_time now : Z) (timed_out_for_game : bool)
    : bool * bool :=
  if timed_out_for_game then (true, true)
  else if timeout <? now - game_start_time then (true, true)
  else (false, false).

(** The pattern of each signal block: [if not check_timeout(..): body
    else: game_signals[key] = None]. The state is the clock and
    [timed_out_for_game]; [body] returns the value and the clock after. *)
Definition guarded (timeout game_start_time : Z) (st : Z * bool) (key : string)
    (body : Z -> pyval * Z) : pyval * (string * step) * (Z * bool) :=
  let '(clk, timed_out) := st in
  let '(skip, timed_out) := check_timeout timeout game_start_time clk timed_out in
  if skip then (PNone, (key, Skipped (clk - game_start_time)), (clk, timed_out))
  else
    let '(v, clk') := body clk in
    (v, (key, Ran (clk - game_start_time)), (clk', timed_out)).

(** A connector call inside [try]: an exception gives None. *)
Definition call_body {A} (c : N * outcome A) (f : A -> pyval) (clk : Z) : pyval * Z :=
  let '(lat, o) := c in
  (match o with Raises => PNone | Returns a => f a end, clk + Z.of_N lat).

Definition mean (l : list Q) : Q :=
  Agg.Qsum l / inject_Z (Z.of_nat (List.length l)).

(** Lines 309-319: the Trends average of the returned frame. *)
Definition trends_avg (kw : string) (r : option trends_frame) : pyval :=
  match r with
  | None => PNone
  | Some (cols, vals) =>
      if existsb (String.eqb kw) cols then
        match vals with [] => PNum 0 | _ => PNum (mean vals) end
      else PNum 0
  end.

(** [re.sub(r'[^\w]', '', name).lower()] on ASCII text (characters
    outside ASCII are dropped here, where Python's [\w] keeps letters). *)
Definition is_word_char (c : Ascii.ascii) : bool :=
  let n := Ascii.nat_of_ascii c in
  ((48 <=? n) && (n <=? 57))%nat || ((65 <=? n) && (n <=? 90))%nat
  || ((97 <=? n) && (n <=? 122))%nat || (n =? 95)%nat.

Definition lower_char (c : Ascii.ascii) : Ascii.ascii :=
  let n := Ascii.nat_of_ascii c in
  if ((65 <=? n) && (n <=? 90))%nat then Ascii.ascii_of_nat (n + 32) else c.

Fixpoint clean_lower (s : string) : string :=
  match s with
  | EmptyString => EmptyString
  | String c s' =>
      if is_word_char c then String (lower_char c) (clean_lower s') else clean_lower s'
  end.

Definition get_or (d : dict string) (k default : string) : string :=
  match Dict.get d k with Some v => v | None => default end.

(** Lines 281-385, one game: returns game_signals, the trace of the four
    signal blocks (by their key) and the clock at the end. *)
Definition collect_game (timeout : Z) (overrides : dict string) (name : string)
    (calls : game_calls) (clk : Z) : dict pyval * list (string * step) * Z :=
  let game_start_time := clk in
  let st := (clk, false) in
  (* 1. Google Trends *)
  let gtrends_keyword := get_or overrides "google_trends_keyword" name in
  let '(v1, s1, st) := guarded timeout game_start_time st "google_trends_avg"
        (call_body (trends_call_of calls) (trends_avg gtrends_keyword)) in
  (* 2. Reddit *)
  let subreddit_to_query := get_or overrides "reddit_subreddit" (clean_lower name) in
  let '(v2, s2, st) := guarded timeout game_start_time st "reddit_data"
        (fun clk => if String.eqb subreddit_to_query "" then (PNone, clk)
                    else call_body (reddit_call calls) (fun v => v) clk) in
  (* 3. Twitter *)
  let '(v3, s3, st) := guarded timeout game_start_time st "twitter_data"
        (call_body (twitter_call calls) (fun v => v)) in
  (* 4. YouTube *)
  let '(v4, s4, st) := guarded timeout game_start_time st "youtube_data"
        (call_body (youtube_call calls) (fun v => v)) in
  let game_signals :=
    set (set (set (set [] "google_trends_avg" v1) "reddit_data" v2)
          "twitter_data" v3) "youtube_data" v4 in
  (game_signals, [s1; s2; s3; s4], fst st).

Definition overrides_of (platform_mapping : dict (dict string)) (name : string)
    : dict string :=
  match Dict.get platform_mapping name with Some o => o | None => [] end.

(** The loop over game_names (line 280); [external_data] as built so far. *)
Fixpoint collect_loop (timeout : Z) (platform_mapping : dict (dict string))
    (games : list (string * game_calls)) (clk : Z) (external_data : dict (dict pyval))
    : dict (dict pyval) * list (string * list (string * step)) * Z :=
  match games with
  | [] => (external_data, [], clk)
  | (name, calls) :: rest =>
      let '(game_signals, tr, clk') :=
        collect_game timeout (overrides_of platform_mapping name) name calls clk in
      let '(ext, trs, clk'') :=
        collect_loop timeout platform_mapping rest clk' (set external_data name game_signals) in
      (ext, (name, tr) :: trs, clk'')
  end.

Definition collect_external_signals (timeout : Z) (platform_mapping : dict (dict string))
    (games : list (string * game_calls)) (clk : Z)
    : dict (dict pyval) * list (string * list (string * step)) * Z :=
  collect_loop timeout platform_mapping games clk [].

(** The trace of one game collected on its own. *)
Definition game_trace (timeout : Z) (platform_mapping : dict (dict string))
    (name : string) (calls : game_calls) : list (string * step) :=
  snd (fst (collect_game timeout (overrides_of platform_mapping name) name calls 0)).

(** Whether a step is consistent with the strict check of line 293: a
    block runs at an elapsed time within the budget, and is skipped past
    it. *)
Definition step_ok (timeout : Z) (s : step) : Prop :=
  match s with
  | Ran e => 0 <= e <= timeout
  | Skipped e => timeout < e
  end.

End Orchestrator.

(* ------------------------------------------------------------------ *)
(** ** DataCollector.collect_current_data *)

Module Collector.

Import Dict Py Retry Orchestrator.

(** A game of the run: its id, the requests of get_current_player_count,
    the value get_app_details returns, and the Twitch lookup:
    [None] when get_game_id_by_name finds no id for the cleaned name,
    [Some v] when get_game_viewership returns [v]. *)
Record app_source : Type := mkApp {
  app_id : Z;
  player_get : nat -> http;
  app_details : pyval;
  twitch_viewers : option pyval
}.

(** Lines 267-284. *)
Definition initial_row (app_id : Z) (player_count : pyval) (timestamp : string)
    : dict pyval :=
  [("app_id", PNum (inject_Z app_id)); ("player_count", player_count);
   ("timestamp", PStr timestamp); ("name", PStr "");
   ("twitch_viewer_count", PNone); ("google_trends_avg", PNone);
   ("reddit_subscribers", PNone); ("reddit_active_users", PNone);
   ("reddit_recent_posts", PNone); ("twitter_recent_count", PNone);
   ("youtube_total_views", PNone); ("youtube_avg_views", PNone);
   ("youtube_avg_likes", PNone)].

(** Lines 287-292: the first category listing the id. *)
Fixpoint category_of (game_categories : list (string * list Z)) (app_id : Z) : string :=
  match game_categories with
  | [] => "uncategorized"
  | (category, ids) :: cats =>
      if existsb (Z.eqb app_id) ids then category else category_of cats app_id
  end.

Fixpoint join_with (sep : string) (l : list string) : string :=
  match l with
  | [] => ""
  | [s] => s
  | s :: l' => s ++ sep ++ join_with sep l'
  end.

Definition str_of (v : pyval) : string :=
  match v with PStr s => s | _ => "" end.

(** Line 305: [','.join(g.get('description', '') for g in genres)]. *)
Definition genres_joined (game_data : pyval) : pyval :=
  match dget_def game_data "genres" (PList []) with
  | PList gs =>
      PStr (join_with "," (map (fun g => str_of (dget_def g "description" (PStr ""))) gs))
  | _ => PStr ""
  end.

(** Lines 266-334 for one game: the row and the game name found. *)
Definition build_row (game_categories : list (string * list Z))
    (include_details include_twitch : bool) (timestamp : string) (a : app_source)
    : dict pyval * pyval :=
  let row := initial_row (app_id a) (get_current_player_count (player_get a)) timestamp in
  let row := set row "category" (PStr (category_of game_categories (app_id a))) in
  let '(row, game_name) :=
    if include_details then
      let details := app_details a in
      if truthy details && pin "data" details then
        let game_data := dget details "data" in
        let game_name := dget game_data "name" in
        (update row
           [("name", game_name);
            ("release_date", dget_def (dget_def game_data "release_date" (PDict [])) "date" (PStr ""));
            ("metacritic_score", dget_def (dget_def game_data "metacritic" (PDict [])) "score" (PStr ""));
            ("genres", genres_joined game_data);
            ("price", dget_def (dget_def game_data "price_overview" (PDict [])) "final_formatted" (PStr ""));
            ("is_free", dget_def game_data "is_free" (PBool false))],
         game_name)
      else (row, PNone)
    else (row, PNone) in
  let row :=
    if include_twitch && truthy game_name then
      match twitch_viewers a with
      | Some viewers => set row "twitch_viewer_count" viewers
      | None => row
      end
    else row in
  (row, game_name).

(** Line 313: the names passed to the external collection (Steam names
    are strings). *)
Definition name_str (v : pyval) : list string :=
  match v with PStr s => if String.eqb s "" then [] else [s] | _ => [] end.

(** [list(set(names))], in order of first occurrence. *)
Fixpoint dedup (l : list string) : list string :=
  match l with
  | [] => []
  | s :: l' => s :: filter (fun t => negb (String.eqb t s)) (dedup l')
  end.

Definition first_key_with_prefix (p : string) (v : pyval) : option string :=
  match v with PDict d => find (String.prefix p) (keys d) | _ => None end.

(** [row[col] = data.get(key)] for the first key of [data] starting with
    [prefix], if there is one (lines 374-376, 386-395). *)
Definition set_from_prefix (row : dict pyval) (col prefix : string) (data : pyval)
    : dict pyval :=
  match first_key_with_prefix prefix data with
  | Some k => set row col (dget data k)
  | None => row
  end.

(** Lines 370-376. *)
Definition merge_reddit (reddit_data : pyval) (row : dict pyval) : dict pyval :=
  if truthy reddit_data then
    let row := set row "reddit_subscribers" (dget reddit_data "subscribers") in
    let row := set row "reddit_active_users" (dget reddit_data "active_users") in
    set_from_prefix row "reddit_recent_posts" "recent_post_count_" reddit_data
  else row.

(** Lines 378-380. *)
Definition merge_twitter (twitter_data : pyval) (row : dict pyval) : dict pyval :=
  if truthy twitter_data then
    set row "twitter_recent_count" (dget twitter_data "recent_tweet_count")
  else row.

(** Lines 382-395. *)
Definition merge_youtube (youtube_data : pyval) (row : dict pyval) : dict pyval :=
  if truthy youtube_data then
    let row := set_from_prefix row "youtube_total_views" "total_views_top_" youtube_data in
    let row := set_from_prefix row "youtube_avg_views" "avg_views_top_" youtube_data in
    set_from_prefix row "youtube_avg_likes" "avg_likes_top_" youtube_data
  else row.

(** Lines 363-395: one game's signals merged into its row. *)
Definition merge_signals (signals : dict pyval) (row : dict pyval) : dict pyval :=
  let row := set row "google_trends_avg" (sget signals "google_trends_avg") in
  let row := merge_reddit (sget signals "reddit_data") row in
  let row := merge_twitter (sget signals "twitter_data") row in
  merge_youtube (sget signals "youtube_data") row.

Definition merge_row (external_signals_data : dict (dict pyval)) (row : dict pyval)
    : dict pyval :=
  match Dict.get row "name" with
  | Some (PStr game_name) =>
      if String.eqb game_name "" then row
      else match Dict.get external_signals_data game_name with
           | Some signals => merge_signals signals row
           | None => row
           end
  | _ => row
  end.

(** Lines 398-405. *)
Definition cols_order : list string :=
  ["app_id"; "name"; "category"; "timestamp"; "player_count"; "twitch_viewer_count";
   "google_trends_avg"; "reddit_subscribers"; "reddit_active_users";
   "reddit_recent_posts"; "twitter_recent_count";
   "youtube_total_views"; "youtube_avg_views"; "youtube_avg_likes";
   "release_date"; "metacritic_score"; "genres"; "price"; "is_free"].

(** The signal metrics of a collected row. *)
Definition metric_keys : list string :=
  ["player_count"; "twitch_viewer_count"; "google_trends_avg";
   "reddit_subscribers"; "reddit_active_users"; "reddit_recent_posts";
   "twitter_recent_count"; "youtube_total_views"; "youtube_avg_views";
   "youtube_avg_likes"].

(** [pd.DataFrame(data_rows)[cols_order_present]]: the columns of
    cols_order some row has, each row read on them (NaN, here [PNone],
    where it has no value). *)
Definition to_frame (data_rows : list (dict pyval)) : list string * list (dict pyval) :=
  let columns := filter (fun c => existsb (fun r => has_key r c) data_rows) cols_order in
  (columns,
   map (fun r => map (fun c => (c, match Dict.get r c with Some v => v | None => PNone end))
                     columns) data_rows).

(** collect_current_data, lines 259-408, for the given games (the
    distinct ids of get_multiple_player_counts, in order). The external
    collection starts at clock [clk]; [external_calls n] is how the
    connectors behave for name [n]. *)
Definition collect_current_data (game_categories : list (string * list Z))
    (include_details include_twitch include_external : bool)
    (timeout : Z) (platform_mapping : dict (dict string))
    (external_calls : string -> game_calls) (timestamp : string) (clk : Z)
    (apps : list app_source) : list string * list (dict pyval) :=
  let built := map (build_row game_categories include_details include_twitch timestamp) apps in
  let data_rows := map fst built in
  let game_names_for_external := flat_map (fun b => name_str (snd b)) built in
  let external_signals_data :=
    if include_external && negb (match game_names_for_external with [] => true | _ => false end)
    then fst (fst (collect_external_signals timeout platform_mapping
                     (map (fun n => (n, external_calls n)) (dedup game_names_for_external)) clk))
    else [] in
  let data_rows :=
    match external_signals_data with
    | [] => data_rows
    | _ => map (merge_row external_signals_data) data_rows
    end in
  to_frame data_rows.

End Collector.

(* ------------------------------------------------------------------ *)
(** ** Sample frames *)

Module AggSamples.

Import Dict Agg.

Definition snap (app : Z) (t : Z) (rd : cell) (nm : string) (players : Z)
    : dict cell :=
  [("app_id", Num (inject_Z app)); ("name", Str nm); ("timestamp", Time t);
   ("release_date", rd); ("player_count", Num (inject_Z players))].

Definition snap_columns : list string :=
  ["app_id"; "name"; "timestamp"; "release_date"; "player_count"].

(** Two snapshots of app 730 out of chronological order (the later one,
    taken on day 2, first), and one of app 570 without release date. *)
Definition unsorted_frame : frame :=
  mkFrame snap_columns
    [snap 730 (2 * DAY_NS) (Time (3 * DAY_NS)) "Name A" 10;
     snap 730 (1 * DAY_NS) (Time (5 * DAY_NS)) "Name B" 20;
     snap 570 (1 * DAY_NS) NA "Name C" 5].

(** The same snapshots in chronological order. *)
Definition sorted_frame : frame :=
  mkFrame snap_columns
    [snap 730 (1 * DAY_NS) (Time (5 * DAY_NS)) "Name B" 20;
     snap 570 (1 * DAY_NS) NA "Name C" 5;
     snap 730 (2 * DAY_NS) (Time (3 * DAY_NS)) "Name A" 10].

(** A frame with a snapshot whose timestamp is missing. *)
Definition frame_missing_ts : frame :=
  mkFrame ["app_id"; "timestamp"] [[("app_id", Num 1); ("timestamp", NA)]].

(** The group of app 730, chronologically ordered, and its output row. *)
Definition group_730 : list (dict cell) :=
  [snap 730 (1 * DAY_NS) (Time (5 * DAY_NS)) "Name B" 20;
   snap 730 (2 * DAY_NS) (Time (3 * DAY_NS)) "Name A" 10].

Definition row_730 : dict cell :=
  match game_row 30 7 30 (Num 730) group_730 with Some r => r | None => [] end.

Definition no_parse_time (_ : string) : option Z := None.
Definition no_parse_num (_ : string) : option Q := None.

End AggSamples.

Module ClaimSamples.

Import Py Retry Orchestrator Collector Governor.

(** Connectors of one game: Trends takes 60 s, the others 1 ms. *)
Definition budget_calls : game_calls :=
  mkCalls (60000%N, Returns None) (1%N, Returns PNone)
          (1%N, Returns PNone) (1%N, Returns PNone).

(** A game whose Steam requests all fail and whose details are empty. *)
Definition failing_app : app_source :=
  mkApp 730 (fun _ => ConnectionError) (PDict []) None.

(** Two Twitter calls in a row: the first is throttled. *)
Definition throttled_requests : list tw_request :=
  [(0%N, 100%N, TwTooManyRequests); (0%N, 100%N, TwResponse None)].

End ClaimSamples.

(* ------------------------------------------------------------------ *)
(** ** Iteration over a Python value *)

Module PyIter.

Import Py.


End PyIter.

(* ------------------------------------------------------------------ *)
(** ** SteamAPIConnector (src/connectors/steam_api_connector.py) *)

Module SteamConn.

Import Py Retry.

(** The fields app_cache, request_count and error_count; app_cache is
    keyed by the integer app id. *)
Record steam_state : Type := mkSteam {
  app_cache : list (Z * pyval);
  request_count : nat;
  error_count : nat
}.




(** _make_request, lines 96-110, with the statistics: each failing
    attempt adds one to error_count. *)
Fixpoint make_request_attempts (max_retries : nat) (get : nat -> http)
    (attempts : list nat) (st : steam_state) : pyval * steam_state :=
  match attempts with
  | [] => (PNone, st)
  | attempt :: rest =>
      let response := get attempt in
      if request_fails response then
        let st := mkSteam (app_cache st) (request_count st) (S (error_count st)) in
        if (attempt <? max_retries - 1)%nat then make_request_attempts max_retries get rest st
        else (PDict [], st)
      else (json_of response, st)
  end.

(** Lines 89-94: one call counts one request, whatever the attempts. *)
Definition make_request (get : nat -> http) (st : steam_state) : pyval * steam_state :=
  let st := mkSteam (app_cache st) (S (request_count st)) (error_count st) in
  let max_retries := 3%nat in
  make_request_attempts max_retries get (seq 0 max_retries) st.



(** get_current_player_count, lines 161-183, with the statistics. *)
Definition get_current_player_count (app_id : Z) (get : nat -> http) (st : steam_state)
    : pyval * steam_state :=
  let '(response, st) := make_request get st in
  (if truthy response && pin "response" response
      && pin "player_count" (dget response "response")
   then dget (dget response "response") "player_count"
   else PNum 0, st).








(** get_api_statistics, lines 208-227. *)
Definition error_rate (st : steam_state) : Q :=
  if (0 <? request_count st)%nat
  then inject_Z (Z.of_nat (error_count st)) / inject_Z (Z.of_nat (request_count st)) * 100
  else 0.

Definition get_api_statistics (st : steam_state) : pyval :=
  PDict [("total_requests", PNum (inject_Z (Z.of_nat (request_count st))));
         ("total_errors", PNum (inject_Z (Z.of_nat (error_count st))));
         ("error_rate_percent", PNum (error_rate st));
         ("cache_size", PNum (inject_Z (Z.of_nat (List.length (app_cache st)))))].





End SteamConn.

(* ------------------------------------------------------------------ *)
(** ** TwitchAPIConnector (src/connectors/twitch_api_connector.py) *)

Module TwitchConn.

Import Dict Py Retry Orchestrator PyIter.

(** The fields _access_token and _token_expiry_time; time.time() in
    seconds ([Q]). *)
Record token_state : Type := mkTok {
  access_token : pyval;
  token_expiry_time : Q
}.

Definition token_init : token_state := mkTok PNone 0.

(** How the POST of lines 57-60 ends: the reply's access_token ([PNone]
    when absent) and its expires_in (a number) when present, or a
    RequestException. *)
Inductive token_reply : Type :=
| TokenOk (access_token : pyval) (expires_in : option Q)
| TokenRequestFails.

(** _get_access_token, lines 40-70: the token returned, the new state
    and whether the POST was made. *)
Definition _get_access_token (has_credentials : bool) (current_time : Q)
    (reply : token_reply) (st : token_state) : pyval * token_state * bool :=
  if truthy (access_token st) && negb (Qle_bool (token_expiry_time st) current_time)
  then (access_token st, st, false)
  else if negb has_credentials then (PNone, st, false)
  else match reply with
       | TokenOk tok expires_in =>
           let e := match expires_in with Some e => e | None => 3600 end in
           (tok, mkTok tok (current_time + e - 60), true)
       | TokenRequestFails => (PNone, mkTok PNone 0, true)
       end.







End TwitchConn.

(* ------------------------------------------------------------------ *)
(** ** Reddit and YouTube connectors of ExternalDataCollector *)

Module ExtConn.

Import Dict Py Orchestrator PyIter.

(** How the PRAW calls of get_reddit_data end: an exception while
    reading the subreddit, or its subscribers and accounts_active with
    the search: [None] when it raises, [Some n] when it yields [n]
    submissions. *)
Inductive reddit_reply : Type :=
| RedditFails
| RedditSubreddit (subscribers active_users : pyval) (search_results : option nat).

(** get_reddit_data, lines 461-552. *)
Definition get_reddit_data (client : bool) (time_filter : string) (r : reddit_reply) : pyval :=
  let key := "recent_post_count_" ++ time_filter in
  let error_result := PDict [("subscribers", PNone); ("active_users", PNone); (key, PNone)] in
  if negb client then error_result
  else match r with
       | RedditFails => error_result
       | RedditSubreddit subscribers active_users search =>
           let post_count :=
             match search with
             | None => PNone
             | Some n => PNum (inject_Z (Z.of_nat (Nat.min n 1000)))
             end in
           PDict [("subscribers", subscribers); ("active_users", active_users); (key, post_count)]
       end.

Section YouTube.

(** [int(s)] on a string: the integer, or [None] where it raises
    ValueError. *)
Variable int_of_str : string -> option Z.









End YouTube.

End ExtConn.

(* ================================================================== *)
(** * Properties *)

Module AggFacts.

Import Dict Agg.
Local Open Scope Z_scope.
Local Open Scope string_scope.

Lemma window_spec (lo hi : Z) (g : list (dict cell)) (x : dict cell) :
  In x (window lo hi g) <->
  In x g /\ exists t, ts_of x = Some t /\ lo <= t < hi.
Proof.
  unfold window, in_window. rewrite filter_In.
  destruct (ts_of x) as [t|]; split.
  - intros [Hin Hb]. apply andb_prop in Hb as [H1 H2].
    apply Z.leb_le in H1. apply Z.ltb_lt in H2. eauto.
  - intros [Hin [t' [Ht Hr]]]. injection Ht as <-.
    split; [assumption|]. apply andb_true_intro.
    split; [apply Z.leb_le | apply Z.ltb_lt]; lia.
  - intros [_ Hb]. discriminate.
  - intros [_ [t' [Ht _]]]. discriminate.
Qed.

(** C1: for a game whose release date resolves to [rd], a snapshot enters
    the pre-release slice exactly when [rd - preDays <= t < rd], the peak
    slice exactly when [rd <= t < rd + peakDays] and the average slice
    exactly when [rd <= t < rd + avgDays] (days in nanoseconds); and the
    pre-release features, the peak features and the average features of
    the emitted row are functions of those slices only: two groups with
    the same release date and the same rows inside a window get the same
    values for the features of that window. *)
Theorem aggregate_windows_half_open (pre peak avg rd : Z) (k : cell)
    (g1 g2 : list (dict cell)) (r1 r2 : dict cell) :
  last_valid (col g1 "release_date") = Time rd ->
  last_valid (col g2 "release_date") = Time rd ->
  game_row pre peak avg k g1 = Some r1 ->
  game_row pre peak avg k g2 = Some r2 ->
  (forall x, In x (pre_release_data rd pre g1) <->
     In x g1 /\ exists t, ts_of x = Some t /\ rd - pre * DAY_NS <= t < rd) /\
  (forall x, In x (post_launch_data_peak rd peak g1) <->
     In x g1 /\ exists t, ts_of x = Some t /\ rd <= t < rd + peak * DAY_NS) /\
  (forall x, In x (post_launch_data_avg rd avg g1) <->
     In x g1 /\ exists t, ts_of x = Some t /\ rd <= t < rd + avg * DAY_NS) /\
  (pre_release_data rd pre g1 = pre_release_data rd pre g2 ->
     forall key, In key ["google_trends_avg_pre"; "reddit_posts_avg_pre";
                         "twitter_count_avg_pre"; "reddit_subs_pre";
                         "reddit_active_pre"] ->
     get r1 key = get r2 key) /\
  (post_launch_data_peak rd peak g1 = post_launch_data_peak rd peak g2 ->
     forall key, In key ["steam_peak_players_" ++ string_of_Z peak ++ "d";
                         "twitch_peak_viewers_" ++ string_of_Z peak ++ "d"] ->
     get r1 key = get r2 key) /\
  (post_launch_data_avg rd avg g1 = post_launch_data_avg rd avg g2 ->
     forall key, In key ["steam_avg_players_" ++ string_of_Z avg ++ "d";
                         "twitch_avg_viewers_" ++ string_of_Z avg ++ "d"] ->
     get r1 key = get r2 key).
Proof.
  intros Hrd1 Hrd2 H1 H2.
  unfold game_row in H1, H2. rewrite Hrd1 in H1. rewrite Hrd2 in H2.
  injection H1 as <-. injection H2 as <-.
  split; [intro x; apply window_spec|].
  split; [intro x; apply window_spec|].
  split; [intro x; apply window_spec|].
  split; [|split].
  - intros Heq key Hk. simpl in Hk.
    repeat destruct Hk as [<- | Hk]; try contradiction;
      simpl; rewrite ?Heq; reflexivity.
  - intros Heq key Hk. simpl in Hk.
    repeat destruct Hk as [<- | Hk]; try contradiction;
      simpl; rewrite ?String.eqb_refl; simpl; rewrite ?String.eqb_refl;
      rewrite ?Heq; reflexivity.
  - intros Heq key Hk. simpl in Hk.
    repeat destruct Hk as [<- | Hk]; try contradiction;
      simpl; rewrite ?String.eqb_refl; simpl; rewrite ?String.eqb_refl;
      rewrite ?Heq; reflexivity.
Qed.

Lemma cell_eqb_trans (a b c : cell) :
  cell_eqb a b = true -> cell_eqb b c = true -> cell_eqb a c = true.
Proof.
  destruct a, b, c; simpl; try discriminate; auto.
  - rewrite !Qeq_bool_iff. intros; eapply Qeq_trans; eauto.
  - rewrite !Z.eqb_eq. congruence.
  - rewrite !String.eqb_eq. congruence.
Qed.

Lemma last_valid_all_na (s : list cell) :
  (forall c, In c s -> c = NA) -> last_valid s = NA.
Proof.
  induction s as [|c s IH]; simpl; intros H; [reflexivity|].
  rewrite IH by auto. apply H; auto.
Qed.

Lemma game_row_app_id pre peak avg k g out :
  game_row pre peak avg k g = Some out -> at_ out "app_id" = k.
Proof.
  unfold game_row. destruct (last_valid (col g "release_date")); try discriminate.
  intros H; injection H as <-. reflexivity.
Qed.

Lemma groups_rows_source pre peak avg (rs : list (dict cell)) out :
  In out (flat_map (fun kg => match game_row pre peak avg (fst kg) (snd kg) with
                              | Some r => [r] | None => [] end)
                   (groupby_app_id rs)) ->
  exists k, game_row pre peak avg k (group_of rs k) = Some out.
Proof.
  rewrite in_flat_map. intros [kg [Hkg Hout]].
  unfold groupby_app_id in Hkg. apply in_map_iff in Hkg as [k [Hk _]].
  subst kg. exists k. cbn [fst snd] in Hout.
  destruct (game_row pre peak avg k (group_of rs k)) as [r|]; [|contradiction].
  destruct Hout as [<-|[]]. reflexivity.
Qed.

(** The output part of aggregate_features, with the prepared frame left
    abstract (so that no proof has to compute the preparation). *)
Lemma output_pair_source pre peak avg (df' : frame) out :
  In out (fst (flat_map (fun kg => match game_row pre peak avg (fst kg) (snd kg) with
                                   | Some r => [r] | None => [] end)
                        (groupby_app_id (rows df')), df')) ->
  exists k, game_row pre peak avg k (group_of (rows df') k) = Some out.
Proof. apply groups_rows_source. Qed.

Lemma aggregate_features_source pdt pnum df pre peak avg out :
  In out (fst (aggregate_features pdt pnum df pre peak avg)) ->
  exists k, game_row pre peak avg k (group_of (rows (prepare pdt pnum df)) k)
            = Some out.
Proof.
  unfold aggregate_features. destruct (empty df).
  - intros [].
  - exact (output_pair_source pre peak avg (prepare pdt pnum df) out).
Qed.

Lemma no_release_group_dropped pre peak avg (rs : list (dict cell)) (k k' : cell) out :
  forallb (fun r => negb (cell_eqb (at_ r "app_id") k)
                    || is_na (at_ r "release_date")) rs = true ->
  game_row pre peak avg k' (group_of rs k') = Some out ->
  cell_eqb k' k = false.
Proof.
  intros Hno Hrow.
  destruct (cell_eqb k' k) eqn:Hkk; [|reflexivity].
  exfalso. unfold game_row in Hrow.
  rewrite last_valid_all_na in Hrow; [discriminate|].
  intros c Hc. unfold col, group_of in Hc.
  apply in_map_iff in Hc as [r [<- Hr]]. apply filter_In in Hr as [Hr Hrk].
  rewrite forallb_forall in Hno. specialize (Hno r Hr).
  rewrite (cell_eqb_trans _ _ _ Hrk Hkk) in Hno. simpl in Hno.
  destruct (at_ r "release_date"); simpl in Hno; congruence.
Qed.

(** C4: if no row of a game's group (after the preparation of lines
    107-120) carries a release date, no output row of aggregate_features
    has that game's app_id. *)
Theorem aggregate_excludes_no_release (pdt : string -> option Z)
    (pnum : string -> option Q) (df : frame) (pre peak avg : Z) (k : cell) :
  forallb (fun r => negb (cell_eqb (at_ r "app_id") k)
                    || is_na (at_ r "release_date"))
          (rows (prepare pdt pnum df)) = true ->
  forall out, In out (fst (aggregate_features pdt pnum df pre peak avg)) ->
  cell_eqb (at_ out "app_id") k = false.
Proof.
  intros Hno out Hout.
  destruct (aggregate_features_source _ _ _ _ _ _ _ Hout) as [k' Hrow].
  rewrite (game_row_app_id _ _ _ _ _ _ Hrow).
  exact (no_release_group_dropped _ _ _ _ _ _ _ Hno Hrow).
Qed.

Lemma ts_leb_refl (r : dict cell) : ts_leb r r = true.
Proof. unfold ts_leb. destruct (ts_of r); [apply Z.leb_refl | reflexivity]. Qed.

Lemma ts_sorted_filter (p : dict cell -> bool) (rs : list (dict cell)) :
  ts_sorted rs = true -> ts_sorted (filter p rs) = true.
Proof.
  induction rs as [|r rs IH]; simpl; [reflexivity|].
  intros H. apply andb_prop in H as [Hr Hs].
  destruct (p r); simpl; rewrite ?IH by assumption; [|reflexivity].
  rewrite andb_true_r. rewrite forallb_forall in *.
  intros x Hx. apply filter_In in Hx as [Hx _]. auto.
Qed.

(** The last non-NA value of a column of chronologically sorted rows is
    carried by a row that is at least as late as every row carrying a
    value; and it is NA only when the whole column is NA. *)
Lemma last_valid_latest (c : string) (g : list (dict cell)) :
  ts_sorted g = true ->
  (last_valid (col g c) = NA /\ forall r, In r g -> at_ r c = NA) \/
  (exists r, In r g /\ at_ r c = last_valid (col g c) /\ at_ r c <> NA /\
     forall r', In r' g -> at_ r' c <> NA -> ts_leb r' r = true).
Proof.
  induction g as [|a g IH]; simpl; intros Hs.
  - left. split; [reflexivity | intros _ []].
  - apply andb_prop in Hs as [Ha Hs]. rewrite forallb_forall in Ha.
    destruct (IH Hs) as [[Hna Hall] | [x [Hx [Hxv [Hxn Hmax]]]]].
    + rewrite Hna. destruct (at_ a c) eqn:Hac.
      * left. split; [reflexivity|]. intros r [<-|Hr]; auto.
      * right. exists a. rewrite Hac. repeat split; [left; reflexivity|discriminate|].
        intros r' [<-|Hr'] Hn; [apply ts_leb_refl|]. exfalso. exact (Hn (Hall r' Hr')).
      * right. exists a. rewrite Hac. repeat split; [left; reflexivity|discriminate|].
        intros r' [<-|Hr'] Hn; [apply ts_leb_refl|]. exfalso. exact (Hn (Hall r' Hr')).
      * right. exists a. rewrite Hac. repeat split; [left; reflexivity|discriminate|].
        intros r' [<-|Hr'] Hn; [apply ts_leb_refl|]. exfalso. exact (Hn (Hall r' Hr')).
    + right. exists x. rewrite <- Hxv.
      assert (Hv : match at_ x c with NA => at_ a c | v => v end = at_ x c)
        by (destruct (at_ x c); [contradiction | reflexivity..]).
      rewrite Hv. repeat split; [right; assumption | assumption |].
      intros r' [<-|Hr'] Hn; [apply Ha; assumption | auto].
Qed.

Lemma sorted_group_latest pre peak avg (rs : list (dict cell)) (k : cell) out :
  ts_sorted rs = true ->
  game_row pre peak avg k (group_of rs k) = Some out ->
  (exists r, In r (group_of rs k) /\
     at_ r "release_date" = at_ out "release_date" /\
     forall r', In r' (group_of rs k) -> at_ r' "release_date" <> NA ->
                ts_leb r' r = true) /\
  ((exists r, In r (group_of rs k) /\ at_ r "name" = at_ out "game_name" /\
     forall r', In r' (group_of rs k) -> at_ r' "name" <> NA ->
                ts_leb r' r = true) \/
   (forall r, In r (group_of rs k) -> at_ r "name" = NA)).
Proof.
  intros Hs Hrow.
  assert (Hg : ts_sorted (group_of rs k) = true) by (apply ts_sorted_filter; exact Hs).
  unfold game_row in Hrow.
  destruct (last_valid_latest "release_date" _ Hg)
    as [[Hna _] | [x [Hx [Hxv [Hxn Hmax]]]]];
    [rewrite Hna in Hrow; discriminate|].
  destruct (last_valid (col (group_of rs k) "release_date")) eqn:Hrd;
    try discriminate; try (exfalso; exact (Hxn Hxv)).
  injection Hrow as <-. split.
  - exists x. split; [exact Hx|]. split; [exact Hxv | exact Hmax].
  - destruct (last_valid_latest "name" _ Hg)
      as [[_ Hall] | [y [Hy [Hyv [Hyn Hmaxy]]]]]; [right; exact Hall|].
    left. exists y. split; [exact Hy|]. split; [|exact Hmaxy].
    cbn. rewrite <- Hyv. destruct (at_ y "name"); [contradiction | reflexivity..].
Qed.

(** C9 (as amended): when the prepared rows are in chronological order
    (as load_merged_data returns them), every emitted row carries the
    release date of a row of its group that is at least as late as every
    row of the group carrying a release date, and likewise for the name
    (or no row of the group has a name). *)
Theorem aggregate_latest_values_when_sorted (pdt : string -> option Z)
    (pnum : string -> option Q) (df : frame) (pre peak avg : Z) :
  ts_sorted (rows (prepare pdt pnum df)) = true ->
  forall out, In out (fst (aggregate_features pdt pnum df pre peak avg)) ->
  exists k,
  (exists r, In r (group_of (rows (prepare pdt pnum df)) k) /\
     at_ r "release_date" = at_ out "release_date" /\
     forall r', In r' (group_of (rows (prepare pdt pnum df)) k) ->
       at_ r' "release_date" <> NA -> ts_leb r' r = true) /\
  ((exists r, In r (group_of (rows (prepare pdt pnum df)) k) /\
     at_ r "name" = at_ out "game_name" /\
     forall r', In r' (group_of (rows (prepare pdt pnum df)) k) ->
       at_ r' "name" <> NA -> ts_leb r' r = true) \/
   (forall r, In r (group_of (rows (prepare pdt pnum df)) k) -> at_ r "name" = NA)).
Proof.
  intros Hs out Hout.
  destruct (aggregate_features_source _ _ _ _ _ _ _ Hout) as [k Hrow].
  exists k. exact (sorted_group_latest _ _ _ _ _ _ Hs Hrow).
Qed.

Lemma map_col_columns f (d : frame) c : columns (map_col f d c) = columns d.
Proof. reflexivity. Qed.

Lemma fold_map_col_columns f cs (d : frame) :
  columns (fold_left (map_col f) cs d) = columns d.
Proof.
  revert d; induction cs as [|c cs IH]; intros d; simpl; [reflexivity|].
  rewrite IH. apply map_col_columns.
Qed.

Lemma fold_add_missing_columns cs (d : frame) c :
  In c cs \/ In c (columns d) -> In c (columns (fold_left add_missing cs d)).
Proof.
  revert d; induction cs as [|c' cs IH]; intros d H; simpl.
  - destruct H as [[]|H]; exact H.
  - apply IH. destruct H as [[->|H]|H]; [right|left; exact H|right].
    + unfold add_missing. destruct (existsb (String.eqb c) (columns d)) eqn:E.
      * apply existsb_exists in E as [x [Hx Hxe]].
        apply String.eqb_eq in Hxe. subst x. exact Hx.
      * cbn [columns]. apply in_or_app. right. left. reflexivity.
    + unfold add_missing. destruct (existsb _ (columns d)); [exact H|].
      cbn [columns]. apply in_or_app. left. exact H.
Qed.

Lemma prepare_eq pdt pnum (df : frame) :
  prepare pdt pnum df =
  dropna_app_ts
    (fold_left (map_col (to_numeric pnum)) metric_cols
       (map_col (to_datetime pdt)
          (map_col (to_datetime pdt)
             (fold_left add_missing (ensure_cols ++ metric_cols)%list df)
             "timestamp") "release_date")).
Proof. reflexivity. Qed.

Lemma dropna_columns (d : frame) : columns (dropna_app_ts d) = columns d.
Proof. reflexivity. Qed.

Lemma dropna_rows (d : frame) :
  rows (dropna_app_ts d) =
  filter (fun r => negb (is_na (at_ r "app_id")) &&
                   negb (is_na (at_ r "timestamp"))) (rows d).
Proof. reflexivity. Qed.

Lemma prepare_columns pdt pnum (df : frame) c :
  In c (ensure_cols ++ metric_cols)%list -> In c (columns (prepare pdt pnum df)).
Proof.
  intros H. rewrite prepare_eq, dropna_columns, fold_map_col_columns,
    !map_col_columns.
  apply fold_add_missing_columns. left. exact H.
Qed.

Lemma prepare_rows pdt pnum (df : frame) r :
  In r (rows (prepare pdt pnum df)) ->
  at_ r "app_id" <> NA /\ at_ r "timestamp" <> NA.
Proof.
  rewrite prepare_eq, dropna_rows. intros H.
  apply filter_In in H as [_ H]. apply andb_prop in H as [H1 H2].
  split; intros E; [rewrite E in H1 | rewrite E in H2]; discriminate.
Qed.

Lemma snd_output_frame (out : list (dict cell)) (df' : frame) : snd (out, df') = df'.
Proof. reflexivity. Qed.

Lemma aggregate_features_frame pdt pnum df pre peak avg :
  empty df = false ->
  snd (aggregate_features pdt pnum df pre peak avg) = prepare pdt pnum df.
Proof.
  intros H. unfold aggregate_features. rewrite H.
  exact (snd_output_frame _ (prepare pdt pnum df)).
Qed.

(** C10: on a non-empty frame, aggregate_features leaves the caller's
    frame in its prepared state: it then has every expected column,
    and only rows with an app_id and a timestamp; on a frame with a
    snapshot without timestamp the caller's frame is changed. *)
Theorem aggregate_features_mutates_input :
  (forall pdt pnum df pre peak avg, empty df = false ->
     snd (aggregate_features pdt pnum df pre peak avg) = prepare pdt pnum df) /\
  (forall pdt pnum df pre peak avg, empty df = false ->
     forall c, In c (ensure_cols ++ metric_cols)%list ->
     In c (columns (snd (aggregate_features pdt pnum df pre peak avg)))) /\
  (forall pdt pnum df pre peak avg, empty df = false ->
     forall r, In r (rows (snd (aggregate_features pdt pnum df pre peak avg))) ->
     at_ r "app_id" <> NA /\ at_ r "timestamp" <> NA) /\
  snd (aggregate_features AggSamples.no_parse_time AggSamples.no_parse_num
         AggSamples.frame_missing_ts 30 7 30) <> AggSamples.frame_missing_ts.
Proof.
  split; [|split; [|split]].
  - exact aggregate_features_frame.
  - intros pdt pnum df pre peak avg H c Hc.
    rewrite aggregate_features_frame by exact H. apply prepare_columns. exact Hc.
  - intros pdt pnum df pre peak avg H r Hr.
    rewrite aggregate_features_frame in Hr by exact H. exact (prepare_rows _ _ _ _ Hr).
  - vm_compute. discriminate.
Qed.

(** C9 (counterexample): given rows out of chronological order,
    aggregate_features takes the name and release date of the last row
    in row order ("Name B", day 5, from the day-1 snapshot), not those of
    the chronologically latest snapshot (day 2: "Name A", day 3). *)
Lemma aggregate_resolves_by_row_order :
  map (fun r => (at_ r "app_id", at_ r "game_name", at_ r "release_date"))
      (fst (aggregate_features AggSamples.no_parse_time AggSamples.no_parse_num
              AggSamples.unsorted_frame 30 7 30))
  = [(Num 730, Str "Name B", Time (5 * DAY_NS))] /\
  In (AggSamples.snap 730 (2 * DAY_NS) (Time (3 * DAY_NS)) "Name A" 10)
     (rows AggSamples.unsorted_frame) /\
  (forall r, In r (rows AggSamples.unsorted_frame) ->
     forall t, ts_of r = Some t -> t <= 2 * DAY_NS).
Proof.
  split; [vm_compute; reflexivity|split].
  - simpl. auto.
  - intros r Hr t Ht. simpl in Hr.
    repeat destruct Hr as [<- | Hr]; try contradiction;
      vm_compute in Ht; injection Ht as <-; vm_compute; discriminate.
Qed.

End AggFacts.

(* ------------------------------------------------------------------ *)
(** * Witnesses: the theorems above at concrete inputs *)


Module GovernorFacts.

Import Governor.
Local Open Scope Z_scope.
Local Open Scope list_scope.

Lemma spaced_app (m : Z) (l1 : list Z) (a b : Z) (l2 : list Z) :
  spaced m (l1 ++ a :: b :: l2) -> a + m <= b.
Proof.
  induction l1 as [|x l1 IH]; simpl; [tauto|].
  destruct l1 as [|y l1]; simpl in *; intros [_ H]; apply IH; exact H.
Qed.

Lemma get_twitter_data_spec st now lat o r st' clk' start :
  get_twitter_data st now lat o = (r, st', clk', start) ->
  twitter_last_api_call_time st + twitter_min_interval <= start /\
  twitter_last_api_call_time st' = start /\
  (twitter_is_in_cooldown st = true -> twitter_cooldown_until st <= start) /\
  (o = TwTooManyRequests ->
     twitter_is_in_cooldown st' = true /\
     twitter_cooldown_until st' = clk' + twitter_rate_limit_cooldown) /\
  start <= clk'.
Proof.
  unfold get_twitter_data.
  assert (Hm : 0 <= twitter_min_interval) by (unfold twitter_min_interval; lia).
  revert Hm. generalize twitter_min_interval twitter_rate_limit_cooldown.
  intros m cd_len Hm H.
  destruct st as [last cd until]; cbn [twitter_last_api_call_time
    twitter_is_in_cooldown twitter_cooldown_until] in *.
  destruct cd; [destruct (Z.ltb_spec now until)|]; cbn [andb] in H;
    destruct (Z.ltb_spec (now - last) m);
    destruct o; injection H as <- <- <- <-;
    cbn [twitter_last_api_call_time twitter_is_in_cooldown twitter_cooldown_until];
    refine (conj _ (conj _ (conj _ (conj _ _))));
    try (match goal with |- _ = _ -> _ => intros Hx end);
    try discriminate; try (split; [reflexivity|]); lia.
Qed.

Lemma twitter_run_after_last client st clk rs e :
  In e (twitter_run client st clk rs) ->
  twitter_last_api_call_time st + twitter_min_interval <= ev_start e.
Proof.
  revert st clk. induction rs as [|[[gap lat] o] rs IH]; intros st clk; simpl; [tauto|].
  destruct client; [|apply IH].
  destruct (get_twitter_data st (clk + Z.of_N gap) lat o)
    as [[[r st'] clk'] start] eqn:E.
  destruct (get_twitter_data_spec _ _ _ _ _ _ _ _ E) as [H1 [H2 _]].
  intros [<-|He]; [exact H1|].
  specialize (IH st' clk' He). rewrite H2 in IH.
  unfold twitter_min_interval in *. lia.
Qed.

Lemma twitter_run_spaced client st clk rs :
  spaced twitter_min_interval (map ev_start (twitter_run client st clk rs)).
Proof.
  revert st clk. induction rs as [|[[gap lat] o] rs IH]; intros st clk; simpl; [exact I|].
  destruct client; [|apply IH].
  destruct (get_twitter_data st (clk + Z.of_N gap) lat o)
    as [[[r st'] clk'] start] eqn:E.
  destruct (get_twitter_data_spec _ _ _ _ _ _ _ _ E) as [_ [H2 _]].
  specialize (IH st' clk').
  destruct (twitter_run true st' clk' rs) as [|e rest] eqn:Er; simpl; [exact I|].
  split; [|exact IH].
  pose proof (twitter_run_after_last true st' clk' rs e) as He.
  rewrite Er, H2 in He. apply He. left. reflexivity.
Qed.

Lemma rate_limit_request_spec d last now :
  last + d <= rate_limit_request d last now /\ now <= rate_limit_request d last now.
Proof.
  unfold rate_limit_request.
  destruct (Z.ltb_spec (now - last) d); lia.
Qed.

Lemma simple_run_head d last clk rs x rest :
  simple_run d last clk rs = x :: rest -> last + d <= x.
Proof.
  destruct rs as [|[gap lat] rs]; simpl; [discriminate|].
  intros H; injection H as <- _. apply rate_limit_request_spec.
Qed.

Lemma simple_run_spaced d last clk rs : spaced d (simple_run d last clk rs).
Proof.
  revert last clk. induction rs as [|[gap lat] rs IH]; intros last clk; simpl; [exact I|].
  specialize (IH (rate_limit_request d last (clk + Z.of_N gap))
                 (rate_limit_request d last (clk + Z.of_N gap) + Z.of_N lat)).
  destruct (simple_run d _ _ rs) as [|x rest] eqn:E; [exact I|].
  split; [eapply simple_run_head; exact E|exact IH].
Qed.

Lemma twitter_run_suffix client st clk rs l1 e l2 :
  twitter_run client st clk rs = l1 ++ e :: l2 ->
  exists clk' rs', l2 = twitter_run client (ev_state e) clk' rs'.
Proof.
  revert st clk l1. induction rs as [|[[gap lat] o] rs IH]; intros st clk l1; simpl.
  - intros H. destruct l1; discriminate.
  - destruct client; [|apply IH].
    destruct (get_twitter_data st (clk + Z.of_N gap) lat o)
      as [[[r st'] clk'] start] eqn:E.
    destruct l1 as [|x l1]; simpl; intros H; injection H as Hx Hrest.
    + subst e. exists clk', rs. simpl. symmetry. exact Hrest.
    + exact (IH st' clk' l1 Hrest).
Qed.

Lemma twitter_run_no_client st clk rs : twitter_run false st clk rs = [].
Proof.
  revert clk. induction rs as [|[[gap lat] o] rs IH]; intros clk; simpl; auto.
Qed.

Lemma twitter_run_in_cooldown client st clk rs e :
  twitter_is_in_cooldown st = true ->
  In e (twitter_run client st clk rs) ->
  twitter_cooldown_until st <= ev_start e.
Proof.
  intros Hcd. destruct client; [|rewrite twitter_run_no_client; simpl; tauto].
  destruct rs as [|[[gap lat] o] rs]; simpl; [tauto|].
  destruct (get_twitter_data st (clk + Z.of_N gap) lat o)
    as [[[r st'] clk'] start] eqn:E.
  destruct (get_twitter_data_spec _ _ _ _ _ _ _ _ E) as [_ [H2 [H3 _]]].
  specialize (H3 Hcd).
  intros [<-|He]; [exact H3|].
  pose proof (twitter_run_after_last true st' clk' rs e He) as H4.
  rewrite H2 in H4. unfold twitter_min_interval in H4. simpl. lia.
Qed.

Lemma twitter_run_throttled_state client st clk rs e :
  In e (twitter_run client st clk rs) ->
  ev_outcome e = TwTooManyRequests ->
  twitter_is_in_cooldown (ev_state e) = true.
Proof.
  revert st clk. induction rs as [|[[gap lat] o] rs IH]; intros st clk; simpl; [tauto|].
  destruct client; [|apply IH].
  destruct (get_twitter_data st (clk + Z.of_N gap) lat o)
    as [[[r st'] clk'] start] eqn:E.
  destruct (get_twitter_data_spec _ _ _ _ _ _ _ _ E) as [_ [_ [_ [H4 _]]]].
  intros [<-|He]; [simpl; intros Ho; apply H4, Ho|exact (IH st' clk' He)].
Qed.

(** C5: every rate governor keeps the starts of the platform calls made
    through it at least its minimum interval apart: the Twitter governor
    of get_twitter_data (15 s, whatever its state and whatever the
    arrivals, latencies and outcomes of the calls), and the governor
    _rate_limit_request of the Steam (1 s) and Twitch (0.5 s) connectors,
    from any last request time. *)
Theorem rate_governors_space_calls :
  (forall client st clk rs,
     spaced twitter_min_interval (map ev_start (twitter_run client st clk rs))) /\
  (forall last clk rs, spaced steam_request_delay (simple_run steam_request_delay last clk rs)) /\
  (forall last clk rs, spaced twitch_request_delay (simple_run twitch_request_delay last clk rs)).
Proof.
  split; [|split]; intros; [apply twitter_run_spaced|apply simple_run_spaced|apply simple_run_spaced].
Qed.

(** C6: once a call of a run through the Twitter governor ends in
    TooManyRequests, which sets the cooldown end to the clock on return
    plus 915 s, no later call of the run starts before that cooldown end. *)
Theorem twitter_no_call_during_cooldown client st clk rs l1 e l2 :
  twitter_run client st clk rs = l1 ++ e :: l2 ->
  ev_outcome e = TwTooManyRequests ->
  forall e', In e' l2 -> twitter_cooldown_until (ev_state e) <= ev_start e'.
Proof.
  intros H Ho e' He'.
  destruct (twitter_run_suffix _ _ _ _ _ _ _ H) as [clk' [rs' ->]].
  apply (twitter_run_in_cooldown client (ev_state e) clk' rs' e'); [|exact He'].
  apply (twitter_run_throttled_state client st clk rs e); [|exact Ho].
  rewrite H. apply in_or_app. right. left. reflexivity.
Qed.

End GovernorFacts.

Module RetryFacts.

Import Py Retry.

Lemma steam_all_fail get :
  (forall i, request_fails (get i) = true) -> steam_make_request get = (PDict [], 3%nat).
Proof.
  intros H. unfold steam_make_request. cbn -[request_fails]. rewrite !H. reflexivity.
Qed.

Lemma unauthorized_fails h : unauthorized h = true -> request_fails h = true.
Proof.
  destruct h as [c j|]; simpl; [|discriminate].
  intros H. apply orb_true_iff in H as [H|H]; apply Z.eqb_eq in H; subst; reflexivity.
Qed.

Lemma twitch_all_fail get refresh :
  (forall i, request_fails (get i) = true /\ unauthorized (get i) = false) ->
  twitch_make_request true get refresh = (PNone, 3%nat).
Proof.
  intros H. unfold twitch_make_request. cbn -[request_fails unauthorized].
  rewrite !(fun i => proj2 (H i)). cbn -[request_fails unauthorized].
  rewrite !(fun i => proj1 (H i)). reflexivity.
Qed.

Lemma twitch_all_unauthorized get refresh :
  (forall i, unauthorized (get i) = true) -> (forall k, refresh k = true) ->
  twitch_make_request true get refresh = (PNone, 6%nat).
Proof.
  intros H Hr. unfold twitch_make_request. cbn -[request_fails unauthorized].
  rewrite !H, !Hr. cbn -[request_fails unauthorized].
  rewrite !(fun i => unauthorized_fails _ (H i)). reflexivity.
Qed.

Lemma twitch_refresh_fails get refresh :
  unauthorized (get 0%nat) = true -> refresh 1%nat = false ->
  twitch_make_request true get refresh = (PNone, 1%nat).
Proof.
  intros H Hr. unfold twitch_make_request. cbn -[request_fails unauthorized].
  rewrite H, Hr. reflexivity.
Qed.

Lemma trends_loop_retried_rate_limit fuel retries call :
  forall attempt i, (attempt <= i)%nat ->
  (S i < attempt + snd (trends_loop fuel retries attempt call))%nat ->
  call i = TrendsError true.
Proof.
  induction fuel as [|fuel IH]; intros attempt i Hle Hlt; simpl in Hlt; [lia|].
  destruct (Nat.leb_spec attempt retries); [|simpl in Hlt; lia].
  destruct (call attempt) as [cols vals|rl] eqn:Ec; [simpl in Hlt; lia|].
  destruct (rl && (attempt <? retries)%nat) eqn:Er; [|simpl in Hlt; lia].
  destruct (trends_loop fuel retries (S attempt) call) as [r n] eqn:Et.
  simpl in Hlt.
  destruct (Nat.eq_dec i attempt) as [->|Hne].
  - apply andb_true_iff in Er as [-> _]. exact Ec.
  - apply (IH (S attempt)); [lia|]. rewrite Et. simpl. lia.
Qed.

Lemma trends_loop_bound fuel retries attempt call :
  (snd (trends_loop fuel retries attempt call) <= fuel)%nat.
Proof.
  revert attempt. induction fuel as [|fuel IH]; intros attempt; simpl; [lia|].
  destruct (attempt <=? retries)%nat; [|simpl; lia].
  destruct (call attempt) as [cols vals|rl]; [simpl; lia|].
  destruct (rl && (attempt <? retries)%nat); [|simpl; lia].
  specialize (IH (S attempt)).
  destruct (trends_loop fuel retries (S attempt) call) as [r n]. simpl in *. lia.
Qed.

(** C7 (amended): only the Google Trends connector tells failures apart.
    Every request of get_google_trends_interest but the last ended in a
    rate-limit error (response code 429), and it makes at most
    [retries + 1] requests; any other failure ends the call. Steam's
    _make_request retries every failing request, a 404 or 401 included,
    for 3 requests. Twitch's _make_request does the same for failures
    other than 401/403. On 401/403 it refreshes the token and re-requests,
    so 6 requests are made when every response is 401/403. When the
    refresh fails it returns None after one request. *)
Theorem connector_retries_by_failure_kind :
  (forall client retries call i,
     (S i < snd (get_google_trends_interest client retries call))%nat ->
     call i = TrendsError true) /\
  (forall client retries call,
     (snd (get_google_trends_interest client retries call) <= S retries)%nat) /\
  (forall get, (forall i, request_fails (get i) = true) ->
     steam_make_request get = (PDict [], 3%nat)) /\
  (forall get refresh,
     (forall i, request_fails (get i) = true /\ unauthorized (get i) = false) ->
     twitch_make_request true get refresh = (PNone, 3%nat)) /\
  (forall get refresh,
     (forall i, unauthorized (get i) = true) -> (forall k, refresh k = true) ->
     twitch_make_request true get refresh = (PNone, 6%nat)) /\
  (forall get refresh,
     unauthorized (get 0%nat) = true -> refresh 1%nat = false ->
     twitch_make_request true get refresh = (PNone, 1%nat)).
Proof.
  split; [|split; [|split; [|split; [|split]]]].
  - intros client retries call i. unfold get_google_trends_interest.
    destruct client; cbn [negb]; [|simpl; lia].
    intros H. apply (trends_loop_retried_rate_limit (S retries) retries call 0 i); [lia|exact H].
  - intros client retries call. unfold get_google_trends_interest.
    destruct client; cbn [negb]; [apply trends_loop_bound|simpl; lia].
  - exact steam_all_fail.
  - exact twitch_all_fail.
  - exact twitch_all_unauthorized.
  - exact twitch_refresh_fails.
Qed.

(** A Steam request answered 404 (not found) every time is made 3
    times. A Twitch request answered 401 every time is made 6 times,
    with a successful token refresh before each re-request. *)
Lemma not_found_and_unauthorized_retried :
  steam_make_request (fun _ => Response 404 PNone) = (PDict [], 3%nat) /\
  twitch_make_request true (fun _ => Response 401 PNone) (fun _ => true) = (PNone, 6%nat).
Proof. split; vm_compute; reflexivity. Qed.

End RetryFacts.

Module OrchestratorFacts.


Import Dict Py Retry Orchestrator Governor.
Local Open Scope Z_scope.

Lemma guarded_spec timeout start clk to key body v k s clk' to' :
  start <= clk -> (to = true -> timeout < clk - start) ->
  (forall c, c <= snd (body c)) ->
  guarded timeout start (clk, to) key body = (v, (k, s), (clk', to')) ->
  k = key /\ step_ok timeout s /\ step_elapsed s = clk - start /\
  clk <= clk' /\ (to' = true -> timeout < clk' - start) /\
  (forall e, s = Skipped e -> v = PNone) /\
  ((forall c, fst (body c) = PNone) -> v = PNone).
Proof.
  intros H0 Hto Hb. unfold guarded, check_timeout.
  destruct to.
  - intros Hg. injection Hg as <- <- <- <- <-. specialize (Hto eq_refl).
    simpl. repeat split; auto; lia.
  - destruct (Z.ltb_spec timeout (clk - start)).
    + intros Hg. injection Hg as <- <- <- <- <-.
      simpl. repeat split; auto; lia.
    + specialize (Hb clk). destruct (body clk) as [v0 c0] eqn:Eb.
      intros Hg. injection Hg as <- <- <- <- <-. simpl in Hb |- *.
      repeat split; try lia; try discriminate.
      intros Hn. specialize (Hn clk). rewrite Eb in Hn. exact Hn.
Qed.

Lemma call_body_mono {A} (cb : N * outcome A) f c : c <= snd (call_body cb f c).
Proof. destruct cb as [lat o]. simpl. lia. Qed.

Lemma call_body_raises {A} lat (f : A -> pyval) c : fst (call_body (lat, Raises) f c) = PNone.
Proof. reflexivity. Qed.

Ltac step_guarded H E :=
  match type of H with
  | context [guarded ?a ?b ?c ?d ?e] =>
      destruct (guarded a b c d e) as [[?v [?k ?s]] [?c' ?t]] eqn:E
  end; cbv beta iota zeta in H.

Lemma collect_game_spec timeout ov name calls clk sig tr clk' :
  collect_game timeout ov name calls clk = (sig, tr, clk') ->
  map fst tr = ["google_trends_avg"; "reddit_data"; "twitter_data"; "youtube_data"] /\
  (forall x, In x tr -> step_ok timeout (snd x)) /\
  spaced 0 (map (fun x => step_elapsed (snd x)) tr) /\
  (forall k e, In (k, Skipped e) tr -> sget sig k = PNone) /\
  clk <= clk'.
Proof.
  unfold collect_game. intros H.
  step_guarded H E1. step_guarded H E2. step_guarded H E3. step_guarded H E4.
  injection H as <- <- <-.
  apply guarded_spec in E1 as (-> & O1 & L1 & M1 & T1 & S1 & _);
    [|lia|discriminate|apply call_body_mono].
  apply guarded_spec in E2 as (-> & O2 & L2 & M2 & T2 & S2 & _);
    [|lia|exact T1|intros c; cbv beta;
     match goal with |- context [if ?b then _ else _] => destruct b end;
     [simpl; lia|apply call_body_mono]].
  apply guarded_spec in E3 as (-> & O3 & L3 & M3 & T3 & S3 & _);
    [|lia|exact T2|apply call_body_mono].
  apply guarded_spec in E4 as (-> & O4 & L4 & M4 & T4 & S4 & _);
    [|lia|exact T3|apply call_body_mono].
  simpl. refine (conj eq_refl (conj _ (conj _ (conj _ _)))).
  - intros x [<-|[<-|[<-|[<-|[]]]]]; assumption.
  - lia.
  - intros k e [Hx|[Hx|[Hx|[Hx|[]]]]]; injection Hx as <- ->; simpl.
    + exact (S1 e eq_refl).
    + exact (S2 e eq_refl).
    + exact (S3 e eq_refl).
    + exact (S4 e eq_refl).
  - lia.
Qed.

Lemma collect_game_values timeout ov name calls clk sig tr clk' :
  collect_game timeout ov name calls clk = (sig, tr, clk') ->
  keys sig = ["google_trends_avg"; "reddit_data"; "twitter_data"; "youtube_data"] /\
  ((snd (trends_call_of calls) = Raises \/ snd (trends_call_of calls) = Returns None) ->
     sget sig "google_trends_avg" = PNone) /\
  (snd (reddit_call calls) = Raises -> sget sig "reddit_data" = PNone) /\
  (snd (twitter_call calls) = Raises -> sget sig "twitter_data" = PNone) /\
  (snd (youtube_call calls) = Raises -> sget sig "youtube_data" = PNone).
Proof.
  unfold collect_game. intros H.
  step_guarded H E1. step_guarded H E2. step_guarded H E3. step_guarded H E4.
  injection H as <- <- <-.
  apply guarded_spec in E1 as (-> & _ & _ & M1 & T1 & _ & N1);
    [|lia|discriminate|apply call_body_mono].
  apply guarded_spec in E2 as (-> & _ & _ & M2 & T2 & _ & N2);
    [|lia|exact T1|intros c; cbv beta;
     match goal with |- context [if ?b then _ else _] => destruct b end;
     [simpl; lia|apply call_body_mono]].
  apply guarded_spec in E3 as (-> & _ & _ & M3 & T3 & _ & N3);
    [|lia|exact T2|apply call_body_mono].
  apply guarded_spec in E4 as (-> & _ & _ & M4 & T4 & _ & N4);
    [|lia|exact T3|apply call_body_mono].
  refine (conj eq_refl (conj _ (conj _ (conj _ _)))); cbn.
  - intros Ho. apply N1. intros c. destruct (trends_call_of calls) as [lat o].
    simpl in Ho. destruct Ho as [->| ->]; reflexivity.
  - intros Ho. apply N2. intros c. cbv beta.
    match goal with |- context [if ?b then _ else _] => destruct b end; [reflexivity|].
    destruct (reddit_call calls) as [lat o]. simpl in Ho. subst o. reflexivity.
  - intros Ho. apply N3. intros c.
    destruct (twitter_call calls) as [lat o]. simpl in Ho. subst o. reflexivity.
  - intros Ho. apply N4. intros c.
    destruct (youtube_call calls) as [lat o]. simpl in Ho. subst o. reflexivity.
Qed.

Lemma guarded_shift timeout start clk to key body d v s c' t' :
  (forall c, body (c + d) = (fst (body c), snd (body c) + d)) ->
  guarded timeout start (clk, to) key body = (v, s, (c', t')) ->
  guarded timeout (start + d) (clk + d, to) key body = (v, s, (c' + d, t')).
Proof.
  intros Hb. unfold guarded, check_timeout.
  replace (clk + d - (start + d)) with (clk - start) by lia.
  destruct to; [intros Hg; injection Hg as <- <- <- <-; reflexivity|].
  destruct (timeout <? clk - start); [intros Hg; injection Hg as <- <- <- <-; reflexivity|].
  rewrite Hb. destruct (body clk) as [v0 c0]. simpl.
  intros Hg; injection Hg as <- <- <- <-; reflexivity.
Qed.

Lemma call_body_shift {A} (cb : N * outcome A) f c d :
  call_body cb f (c + d) = (fst (call_body cb f c), snd (call_body cb f c) + d).
Proof. destruct cb as [lat o]. simpl. f_equal. lia. Qed.

Ltac step_shift H E dd :=
  match type of H with
  | context [guarded ?a ?b ?c ?d ?e] =>
      destruct (guarded a b c d e) as [[?v ?s] [?c' ?t]] eqn:E
  end; cbv beta iota zeta in H;
  apply guarded_shift with (d := dd) in E;
  [|intros ?cc; cbv beta;
    first [ apply call_body_shift
          | match goal with |- context [if ?b then _ else _] => destruct b end;
            [reflexivity|apply call_body_shift] ]];
  rewrite E; cbv beta iota zeta.

Lemma collect_game_shift timeout ov name calls clk sig tr c :
  collect_game timeout ov name calls 0 = (sig, tr, c) ->
  collect_game timeout ov name calls clk = (sig, tr, c + clk).
Proof.
  unfold collect_game. cbv zeta. intros H.
  replace clk with (0 + clk) by lia.
  step_shift H E1 clk. step_shift H E2 clk. step_shift H E3 clk. step_shift H E4 clk.
  injection H as <- <- <-. reflexivity.
Qed.

Lemma collect_loop_traces timeout pm games :
  forall clk ext,
  snd (fst (collect_loop timeout pm games clk ext)) =
  map (fun g => (fst g, game_trace timeout pm (fst g) (snd g))) games.
Proof.
  induction games as [|[name calls] games IH]; intros clk ext; simpl; [reflexivity|].
  unfold game_trace.
  destruct (collect_game timeout (overrides_of pm name) name calls 0) as [[sig0 tr0] c0] eqn:E0.
  rewrite (collect_game_shift _ _ _ _ clk _ _ _ E0).
  destruct (collect_loop timeout pm games (c0 + clk) (set ext name sig0)) as [[ext' trs] c'] eqn:El.
  simpl. f_equal. specialize (IH (c0 + clk) (set ext name sig0)). rewrite El in IH. exact IH.
Qed.

(** C8 (amended): each of the four signal blocks of a game is checked
    at the time elapsed since the game's start. A block runs when that
    time is at most the budget. It is skipped when the time is strictly
    greater. The elapsed times never decrease, so once a block is
    skipped all later ones are too, and a block reached exactly at the
    budget still runs. Each game's trace in a run equals the trace of
    that game collected on its own: a timeout in one game does not
    affect the others. *)
Theorem external_timeout_strict_per_game :
  (forall timeout ov name calls clk,
     let tr := snd (fst (collect_game timeout ov name calls clk)) in
     map fst tr = ["google_trends_avg"; "reddit_data"; "twitter_data"; "youtube_data"] /\
     (forall x, In x tr -> step_ok timeout (snd x)) /\
     spaced 0 (map (fun x => step_elapsed (snd x)) tr)) /\
  (forall timeout pm games clk,
     snd (fst (collect_external_signals timeout pm games clk)) =
     map (fun g => (fst g, game_trace timeout pm (fst g) (snd g))) games).
Proof.
  split.
  - intros timeout ov name calls clk tr.
    destruct (collect_game timeout ov name calls clk) as [[sig tr'] c] eqn:E.
    apply collect_game_spec in E as (Hk & Hok & Hsp & _).
    subst tr. simpl. auto.
  - intros. apply collect_loop_traces.
Qed.

(** With a 60 s budget and a Trends call taking exactly 60 s, the Reddit
    block runs at elapsed time 60000 ms, equal to the budget. Twitter
    and YouTube are skipped once the elapsed time is past it. *)
Lemma block_at_budget_still_runs :
  snd (fst (collect_game 60000 [] "Game" ClaimSamples.budget_calls 0)) =
  [("google_trends_avg", Ran 0); ("reddit_data", Ran 60000);
   ("twitter_data", Skipped 60001); ("youtube_data", Skipped 60001)].
Proof. vm_compute. reflexivity. Qed.

End OrchestratorFacts.

Module CollectorFacts.

Import Dict Py Retry Orchestrator Collector OrchestratorFacts.

Lemma has_key_set_mono {V} (d : dict V) k k' v :
  has_key d k = true -> has_key (set d k' v) k = true.
Proof.
  unfold has_key, keys. induction d as [|[k0 v0] d IH]; simpl; [discriminate|].
  destruct (String.eqb k' k0); simpl; [tauto|].
  intros H. apply orb_true_iff in H as [H|H]; rewrite ?H; [reflexivity|].
  rewrite IH; [apply orb_true_r|exact H].
Qed.

Lemma has_key_update_mono {V} (d e : dict V) k :
  has_key d k = true -> has_key (update d e) k = true.
Proof.
  unfold update. revert d. induction e as [|[k' v] e IH]; intros d H; simpl; [exact H|].
  apply IH, has_key_set_mono, H.
Qed.

Lemma get_set {V} (d : dict V) k v n :
  get (set d k v) n = if String.eqb n k then Some v else get d n.
Proof.
  induction d as [|[k0 v0] d IH]; simpl.
  - reflexivity.
  - destruct (String.eqb_spec k k0) as [->|Hne]; simpl.
    + destruct (String.eqb n k0); reflexivity.
    + rewrite IH. destruct (String.eqb_spec n k0) as [->|]; [|reflexivity].
      destruct (String.eqb_spec k0 k); [congruence|reflexivity].
Qed.

Ltac keys_mono :=
  repeat match goal with
  | |- has_key (fst (_, _)) _ = true => cbn [fst]
  | |- has_key (set _ _ _) _ = true => apply has_key_set_mono
  | |- has_key (update _ _) _ = true => apply has_key_update_mono
  | |- has_key (if ?b then _ else _) _ = true => destruct b
  | |- has_key (match ?x with _ => _ end) _ = true => destruct x
  end.

Lemma initial_row_keys app pc ts k :
  In k metric_keys -> has_key (initial_row app pc ts) k = true.
Proof.
  intros Hk. repeat destruct Hk as [<-|Hk]; try reflexivity. destruct Hk.
Qed.

Lemma build_row_keys cats dets tw ts a k :
  In k metric_keys -> has_key (fst (build_row cats dets tw ts a)) k = true.
Proof.
  intros Hk. apply (initial_row_keys (app_id a) (get_current_player_count (player_get a)) ts) in Hk.
  unfold build_row. cbv zeta.
  destruct dets; [destruct (truthy (app_details a) && pin "data" (app_details a))|];
    cbv beta iota; keys_mono; exact Hk.
Qed.

Lemma set_from_prefix_mono row col prefix data k :
  has_key row k = true -> has_key (set_from_prefix row col prefix data) k = true.
Proof.
  intros H. unfold set_from_prefix.
  destruct (first_key_with_prefix prefix data); [apply has_key_set_mono|]; exact H.
Qed.

Lemma merge_row_keys ext row k :
  has_key row k = true -> has_key (merge_row ext row) k = true.
Proof.
  intros H. unfold merge_row.
  destruct (get row "name") as [[]|]; try exact H.
  destruct (String.eqb _ _); [exact H|].
  destruct (get ext _) as [signals|]; [|exact H].
  unfold merge_signals, merge_youtube, merge_twitter, merge_reddit. cbv zeta.
  destruct (truthy (sget signals "youtube_data"));
    repeat apply set_from_prefix_mono;
    (destruct (truthy (sget signals "twitter_data")); [apply has_key_set_mono|]);
    (destruct (truthy (sget signals "reddit_data"));
      [apply set_from_prefix_mono; do 2 apply has_key_set_mono|]);
    apply has_key_set_mono; exact H.
Qed.

Lemma to_frame_keys rows k :
  In k cols_order -> (forall r, In r rows -> has_key r k = true) ->
  (forall r, In r (snd (to_frame rows)) -> has_key r k = true) /\
  (rows <> [] -> In k (fst (to_frame rows))).
Proof.
  intros Hc Hr.
  assert (Hcol : rows <> [] -> In k (fst (to_frame rows))).
  { intros Hne. unfold to_frame. cbn [fst]. apply filter_In. split; [exact Hc|].
    destruct rows as [|r rows]; [congruence|].
    cbn [existsb]. rewrite (Hr r (or_introl eq_refl)). reflexivity. }
  split; [|exact Hcol].
  intros r. unfold to_frame. cbn [snd]. intros Hin. apply in_map_iff in Hin as [r0 [<- Hr0]].
  unfold has_key, keys. rewrite map_map. cbn [fst]. rewrite map_id.
  apply existsb_exists. exists k. split; [|apply String.eqb_refl].
  apply filter_In. split; [exact Hc|].
  apply existsb_exists. exists r0. split; [exact Hr0|exact (Hr r0 Hr0)].
Qed.

Lemma metric_keys_in_cols_order k : In k metric_keys -> In k cols_order.
Proof.
  intros Hk. unfold metric_keys in Hk. unfold cols_order.
  repeat destruct Hk as [<-|Hk]; try (simpl; tauto). 
Qed.

Lemma collect_loop_keys timeout pm games :
  forall clk ext,
  (forall n s, get ext n = Some s ->
     keys s = ["google_trends_avg"; "reddit_data"; "twitter_data"; "youtube_data"]) ->
  forall n s, get (fst (fst (collect_loop timeout pm games clk ext))) n = Some s ->
  keys s = ["google_trends_avg"; "reddit_data"; "twitter_data"; "youtube_data"].
Proof.
  induction games as [|[name calls] games IH]; intros clk ext Hext; simpl; [exact Hext|].
  destruct (collect_game timeout (overrides_of pm name) name calls clk) as [[sig tr] c] eqn:E.
  apply collect_game_values in E as [Hk _].
  specialize (IH c (set ext name sig)).
  destruct (collect_loop timeout pm games c (set ext name sig)) as [[ext' trs] c'].
  simpl in *. apply IH.
  intros n s. rewrite get_set. destruct (String.eqb n name).
  - intros Hs. injection Hs as <-. exact Hk.
  - apply Hext.
Qed.

End CollectorFacts.

Module CollectionFacts.
Import Dict Py Retry Orchestrator Collector OrchestratorFacts CollectorFacts.

Lemma collect_current_data_keys cats dets tw ext timeout pm calls ts clk apps :
  let out := collect_current_data cats dets tw ext timeout pm calls ts clk apps in
  (forall r, In r (snd out) -> forall k, In k metric_keys -> has_key r k = true) /\
  (apps <> [] -> forall k, In k metric_keys -> In k (fst out)).
Proof.
  intros out. subst out. unfold collect_current_data. cbv zeta.
  match goal with |- context [to_frame (match ?e with _ => _ end)] => destruct e as [|p ext0] end;
  match goal with |- context [to_frame ?rows] =>
    assert (Hrows : forall k, In k metric_keys -> forall r, In r rows -> has_key r k = true);
    [|assert (Hne : apps <> [] -> rows <> [])] end.
  - intros k Hk r Hr. rewrite map_map in Hr. apply in_map_iff in Hr as [a [<- _]].
    apply build_row_keys, Hk.
  - intros Hne Hn. destruct apps; [congruence|discriminate].
  - split.
    + intros r Hr k Hk.
      apply (proj1 (to_frame_keys _ k (metric_keys_in_cols_order k Hk) (Hrows k Hk))), Hr.
    + intros Ha k Hk.
      exact (proj2 (to_frame_keys _ k (metric_keys_in_cols_order k Hk) (Hrows k Hk)) (Hne Ha)).
  - intros k Hk r Hr. apply in_map_iff in Hr as [r0 [<- Hr0]].
    apply merge_row_keys. rewrite map_map in Hr0. apply in_map_iff in Hr0 as [a [<- _]].
    apply build_row_keys, Hk.
  - intros Hne Hn. destruct apps; [congruence|discriminate].
  - split.
    + intros r Hr k Hk.
      apply (proj1 (to_frame_keys _ k (metric_keys_in_cols_order k Hk) (Hrows k Hk))), Hr.
    + intros Ha k Hk.
      exact (proj2 (to_frame_keys _ k (metric_keys_in_cols_order k Hk) (Hrows k Hk)) (Hne Ha)).
Qed.

(** C3: every row collect_current_data emits has every signal metric
    key, whatever the connectors return. The output frame has these
    columns as soon as there is one game. Every bundle of
    collect_external_signals has exactly the keys google_trends_avg,
    reddit_data, twitter_data and youtube_data. *)
Theorem collected_rows_keep_metric_keys :
  (forall cats dets tw ext timeout pm calls ts clk apps,
     let out := collect_current_data cats dets tw ext timeout pm calls ts clk apps in
     (forall r, In r (snd out) -> forall k, In k metric_keys -> has_key r k = true) /\
     (apps <> [] -> forall k, In k metric_keys -> In k (fst out))) /\
  (forall timeout pm games clk name signals,
     get (fst (fst (collect_external_signals timeout pm games clk))) name = Some signals ->
     keys signals = ["google_trends_avg"; "reddit_data"; "twitter_data"; "youtube_data"]).
Proof.
  split.
  - apply collect_current_data_keys.
  - intros timeout pm games clk. apply collect_loop_keys. discriminate.
Qed.

Lemma nums_all_na (s : list Agg.cell) :
  (forall c, In c s -> c = Agg.NA) -> Agg.nums s = [].
Proof.
  induction s as [|c s IH]; simpl; intros H; [reflexivity|].
  rewrite (H c (or_introl eq_refl)). apply IH. auto.
Qed.

(** C2 (amended): some unavailable values are null. An all-absent
    aggregation slice gives NaN (None in the output). A skipped
    connector gives None, and so does a raising one or a failed Trends
    fetch. But collection also records 0: get_current_player_count
    returns 0 when every Steam request fails. The Trends average is 0
    when the returned frame lacks the keyword column or is empty. *)
Theorem absent_values_and_zero_defaults :
  (forall s, (forall c, In c s -> c = Agg.NA) ->
     Agg.mean_skipna s = Agg.NA /\ Agg.max_skipna s = Agg.NA /\ Agg.last_valid s = Agg.NA) /\
  (forall timeout ov name calls clk k e,
     In (k, Skipped e) (snd (fst (collect_game timeout ov name calls clk))) ->
     sget (fst (fst (collect_game timeout ov name calls clk))) k = PNone) /\
  (forall timeout ov name calls clk,
     let signals := fst (fst (collect_game timeout ov name calls clk)) in
     ((snd (trends_call_of calls) = Raises \/ snd (trends_call_of calls) = Returns None) ->
        sget signals "google_trends_avg" = PNone) /\
     (snd (reddit_call calls) = Raises -> sget signals "reddit_data" = PNone) /\
     (snd (twitter_call calls) = Raises -> sget signals "twitter_data" = PNone) /\
     (snd (youtube_call calls) = Raises -> sget signals "youtube_data" = PNone)) /\
  (forall get, (forall i, request_fails (get i) = true) ->
     get_current_player_count get = PNum 0) /\
  (forall kw cols vals, existsb (String.eqb kw) cols = false ->
     trends_avg kw (Some (cols, vals)) = PNum 0) /\
  (forall kw cols, trends_avg kw (Some (cols, [])) = PNum 0).
Proof.
  refine (conj _ (conj _ (conj _ (conj _ (conj _ _))))).
  - intros s H. unfold Agg.mean_skipna, Agg.max_skipna.
    rewrite (nums_all_na s H). split; [reflexivity|split; [reflexivity|]].
    apply AggFacts.last_valid_all_na, H.
  - intros timeout ov name calls clk k e.
    destruct (collect_game timeout ov name calls clk) as [[sig tr] c] eqn:E.
    apply collect_game_spec in E as (_ & _ & _ & Hs & _). apply Hs.
  - intros timeout ov name calls clk signals. subst signals.
    destruct (collect_game timeout ov name calls clk) as [[sig tr] c] eqn:E.
    apply collect_game_values in E as (_ & H). exact H.
  - intros get H. unfold get_current_player_count.
    rewrite (RetryFacts.steam_all_fail get H). reflexivity.
  - intros kw cols vals H. simpl. rewrite H. reflexivity.
  - intros kw cols. simpl. destruct (existsb _ _); reflexivity.
Qed.

(** A game whose Steam player-count requests all fail gets player_count
    0 in its collected row, not a null. *)
Lemma failed_player_count_recorded_as_zero :
  Dict.get (hd [] (snd (collect_current_data [] true true true 30000 []
              (fun _ => ClaimSamples.budget_calls) "t0" 0 [ClaimSamples.failing_app])))
           "player_count" = Some (PNum 0).
Proof. vm_compute. reflexivity. Qed.

End CollectionFacts.

Module RequestFacts.

Import Py Retry.

Theorem steam_make_request_first_success (get : nat -> http) (i : nat) :
  (i < 3)%nat ->
  (forall j, (j < i)%nat -> request_fails (get j) = true) ->
  request_fails (get i) = false ->
  steam_make_request get = (json_of (get i), S i).
Proof.
  intros Hi Hj Hok. unfold steam_make_request. cbn -[request_fails].
  destruct i as [|[|[|i]]]; [| | |lia].
  - rewrite Hok. reflexivity.
  - rewrite (Hj 0%nat) by lia. rewrite Hok. reflexivity.
  - rewrite (Hj 0%nat), (Hj 1%nat) by lia. rewrite Hok. reflexivity.
Qed.

Lemma twitch_attempts_bound m get refresh atts :
  forall k, (k <= snd (twitch_attempts m get refresh k atts) <= k + 2 * List.length atts)%nat.
Proof.
  induction atts as [|a atts IH]; intros k; simpl; [lia|].
  destruct (unauthorized (get k) && negb (refresh (S k))); [simpl; lia|].
  destruct (unauthorized (get k)).
  - destruct (request_fails (get (S k))); [|simpl; lia].
    destruct (a <? m - 1)%nat; [|simpl; lia]. specialize (IH (S (S k))). lia.
  - destruct (request_fails (get k)); [|simpl; lia].
    destruct (a <? m - 1)%nat; [|simpl; lia]. specialize (IH (S k)). lia.
Qed.

Lemma steam_attempts_bound m get atts :
  (snd (steam_attempts m get atts) <= List.length atts)%nat.
Proof.
  induction atts as [|a atts IH]; simpl; [lia|].
  destruct (request_fails (get a)); [|simpl; lia].
  destruct (a <? m - 1)%nat; [|simpl; lia].
  destruct (steam_attempts m get atts) as [r n]. simpl in *. lia.
Qed.

Lemma steam_attempts_pos m get a atts :
  (1 <= snd (steam_attempts m get (a :: atts)))%nat.
Proof.
  simpl. destruct (request_fails (get a)); [|simpl; lia].
  destruct (a <? m - 1)%nat; [|simpl; lia].
  destruct (steam_attempts m get atts) as [r n]. simpl. lia.
Qed.

Theorem connector_request_counts_bounded :
  (forall get, (1 <= snd (steam_make_request get) <= 3)%nat) /\
  (forall token get refresh, (snd (twitch_make_request token get refresh) <= 6)%nat).
Proof.
  split.
  - intros get. split.
    + apply steam_attempts_pos.
    + apply (steam_attempts_bound 3 get (seq 0 3)).
  - intros token get refresh. unfold twitch_make_request.
    destruct token; simpl negb; cbv iota beta; [|simpl; lia].
    pose proof (twitch_attempts_bound 3 get refresh (seq 0 3) 0). simpl List.length in H. lia.
Qed.

End RequestFacts.

Module SteamFacts.

Import Py Retry SteamConn.














End SteamFacts.

Module PlayerCountsFacts.

Import Py Retry SteamConn SteamFacts.












End PlayerCountsFacts.

Module TwitchFacts.

Import Dict Py Orchestrator PyIter TwitchConn CollectorFacts.

Theorem access_token_reused_until_expiry (st0 : token_state) (t0 e : Q) (tok : pyval)
    (has_credentials : bool) (t : Q) (reply : token_reply) :
  truthy (access_token st0) && negb (Qle_bool (token_expiry_time st0) t0) = false ->
  truthy tok = true ->
  let st1 := snd (fst (_get_access_token true t0 (TokenOk tok (Some e)) st0)) in
  (t < t0 + e - 60 -> _get_access_token has_credentials t reply st1 = (tok, st1, false)) /\
  (t0 + e - 60 <= t -> snd (_get_access_token true t reply st1) = true).
Proof.
  intros Hst Htok. unfold _get_access_token at 1 2 3. rewrite Hst. cbn [negb fst snd].
  split.
  - intros Hlt. cbn [access_token token_expiry_time]. rewrite Htok.
    destruct (Qle_bool (t0 + e - 60) t) eqn:Ele.
    + apply Qle_bool_iff in Ele. exfalso. apply (Qlt_not_le _ _ Hlt Ele).
    + reflexivity.
  - intros Hle. unfold _get_access_token. cbn [access_token token_expiry_time].
    apply Qle_bool_iff in Hle. rewrite Hle, andb_false_r. cbn [negb].
    destruct reply; reflexivity.
Qed.

Theorem access_token_failure_resets :
  (forall t reply st, snd (_get_access_token false t reply st) = false) /\
  (forall t st,
     truthy (access_token st) && negb (Qle_bool (token_expiry_time st) t) = false ->
     _get_access_token true t TokenRequestFails st = (PNone, token_init, true)) /\
  (forall t reply, snd (_get_access_token true t reply token_init) = true).
Proof.
  split; [|split].
  - intros t reply st. unfold _get_access_token.
    destruct (truthy (access_token st) && negb (Qle_bool (token_expiry_time st) t));
      reflexivity.
  - intros t st H. unfold _get_access_token. rewrite H. reflexivity.
  - intros t reply. destruct reply; reflexivity.
Qed.

Lemma has_key_set_same {V} (d : dict V) k v : has_key (set d k v) k = true.
Proof.
  unfold has_key, keys. induction d as [|[k0 v0] d IH]; simpl.
  - rewrite String.eqb_refl. reflexivity.
  - destruct (String.eqb_spec k k0) as [->|]; simpl.
    + rewrite String.eqb_refl. reflexivity.
    + rewrite IH. apply orb_true_r.
Qed.




End TwitchFacts.

Module ExtFacts.

Import Dict Py Orchestrator PyIter Collector ExtConn CollectorFacts.

Lemma prefix_app (s t : string) : String.prefix s (s ++ t) = true.
Proof.
  induction s as [|c s IH]; simpl.
  - destruct t; reflexivity.
  - destruct (Ascii.ascii_dec c c); [exact IH|congruence].
Qed.

Theorem reddit_reply_fills_reddit_columns (client : bool) (time_filter : string)
    (r : reddit_reply) (row : dict pyval) :
  let d := get_reddit_data client time_filter r in
  let row' := merge_reddit d row in
  get row' "reddit_subscribers" = Some (dget d "subscribers") /\
  get row' "reddit_active_users" = Some (dget d "active_users") /\
  get row' "reddit_recent_posts" = Some (dget d ("recent_post_count_" ++ time_filter)) /\
  (forall q, dget d ("recent_post_count_" ++ time_filter) = PNum q -> (q <= 1000)%Q) /\
  (client = false \/ r = RedditFails ->
     dget d "subscribers" = PNone /\ dget d "active_users" = PNone /\
     dget d ("recent_post_count_" ++ time_filter) = PNone).
Proof.
  intros d row'.
  assert (Hshape : exists s a p, d = PDict [("subscribers", s); ("active_users", a);
                                           ("recent_post_count_" ++ time_filter, p)] /\
            (client = false \/ r = RedditFails -> s = PNone /\ a = PNone /\ p = PNone) /\
            (forall q, p = PNum q -> (q <= 1000)%Q)).
  { subst d. unfold get_reddit_data.
    destruct client; [destruct r as [|s a [n|]]|]; cbn [negb];
      (do 3 eexists; split; [reflexivity|split]);
      try (intros _; auto; fail); try (intros [H|H]; discriminate);
      try (intros q Hq; discriminate).
    intros q Hq. injection Hq as <-. unfold Qle. simpl. lia. }
  destruct Hshape as (s & a & p & Hd & Hnone & Hcap).
  assert (Hp : dget d ("recent_post_count_" ++ time_filter) = p).
  { rewrite Hd. unfold dget, dget_def. simpl.
    rewrite String.eqb_refl. reflexivity. }
  subst row'. rewrite Hp. rewrite Hd. unfold merge_reddit. cbn [truthy].
  unfold set_from_prefix, first_key_with_prefix. cbn [keys map fst find].
  rewrite prefix_app.
  replace (String.prefix "recent_post_count_" "subscribers") with false by reflexivity.
  replace (String.prefix "recent_post_count_" "active_users") with false by reflexivity.
  cbv iota. rewrite !get_set. simpl. unfold dget, dget_def. simpl. rewrite String.eqb_refl.
  split; [reflexivity|split; [reflexivity|split; [reflexivity|split]]].
  - exact Hcap.
  - intros H. apply Hnone, H.
Qed.



End ExtFacts.

Module HelperFacts.

Import Dict Py Orchestrator Collector CollectorFacts.



Theorem category_of_first_listing (game_categories : list (string * list Z)) (app_id : Z) :
  (category_of game_categories app_id = "uncategorized" /\
   forall category ids, In (category, ids) game_categories -> ~ In app_id ids) \/
  (exists l1 category ids l2,
     game_categories = (l1 ++ (category, ids) :: l2)%list /\ In app_id ids /\
     (forall c' ids', In (c', ids') l1 -> ~ In app_id ids') /\
     category_of game_categories app_id = category).
Proof.
  induction game_categories as [|[category ids] cats IH]; simpl.
  - left. split; [reflexivity|intros _ _ []].
  - destruct (existsb (Z.eqb app_id) ids) eqn:E.
    + right. exists [], category, ids, cats. repeat split.
      * apply existsb_exists in E as (x & Hx & Hq). apply Z.eqb_eq in Hq. subst. exact Hx.
      * intros _ _ [].
    + assert (Hn : ~ In app_id ids).
      { intros Hin. assert (existsb (Z.eqb app_id) ids = true) as Ht
          by (apply existsb_exists; exists app_id; split; [exact Hin|apply Z.eqb_refl]).
        congruence. }
      destruct IH as [[H1 H2]|(l1 & c & ids' & l2 & -> & Hin & Hl1 & Hc)].
      * left. split; [exact H1|]. intros c' ids' [Heq|Hin]; [injection Heq as <- <-; exact Hn|].
        apply (H2 c' ids' Hin).
      * right. exists ((category, ids) :: l1)%list, c, ids', l2. repeat split; auto.
        intros c' ids'' [Heq|Hin']; [injection Heq as <- <-; exact Hn|apply (Hl1 c' ids'' Hin')].
Qed.



Lemma collect_loop_has timeout pm games :
  forall clk ext n,
  (has_key ext n = true \/ In n (map fst games)) ->
  has_key (fst (fst (collect_loop timeout pm games clk ext))) n = true.
Proof.
  induction games as [|[name calls] games IH]; intros clk ext n H; simpl.
  - destruct H as [H|[]]. exact H.
  - destruct (collect_game timeout (overrides_of pm name) name calls clk) as [[sig tr] c].
    specialize (IH c (set ext name sig) n).
    destruct (collect_loop timeout pm games c (set ext name sig)) as [[ext' trs] c'].
    simpl in *. apply IH. destruct H as [H|[H|H]].
    + left. apply has_key_set_mono, H.
    + subst. left. apply TwitchFacts.has_key_set_same.
    + right. exact H.
Qed.

Lemma collect_loop_only timeout pm games :
  forall clk ext n s,
  get (fst (fst (collect_loop timeout pm games clk ext))) n = Some s ->
  get ext n = Some s \/ In n (map fst games).
Proof.
  induction games as [|[name calls] games IH]; intros clk ext n s H; simpl in *.
  - left. exact H.
  - destruct (collect_game timeout (overrides_of pm name) name calls clk) as [[sig tr] c].
    destruct (collect_loop timeout pm games c (set ext name sig)) as [[ext' trs] c'] eqn:E.
    simpl in H. specialize (IH c (set ext name sig) n s). rewrite E in IH. simpl in IH.
    destruct (IH H) as [H'|H']; [|right; right; exact H'].
    rewrite get_set in H'. destruct (String.eqb_spec n name) as [->|]; [right; left; reflexivity|].
    left. exact H'.
Qed.

Theorem external_signals_entry_per_game timeout pm games clk :
  let external_data := fst (fst (collect_external_signals timeout pm games clk)) in
  (forall name, In name (map fst games) -> has_key external_data name = true) /\
  (forall name game_signals, get external_data name = Some game_signals ->
     In name (map fst games) /\
     keys game_signals = ["google_trends_avg"; "reddit_data"; "twitter_data"; "youtube_data"]).
Proof.
  intros external_data. split.
  - intros name H. apply collect_loop_has. right. exact H.
  - intros name sig H. split.
    + destruct (collect_loop_only timeout pm games clk [] name sig H) as [H'|H'];
        [discriminate|exact H'].
    + refine (collect_loop_keys timeout pm games clk [] _ name sig H).
      intros n0 s0 Hx. discriminate.
Qed.

End HelperFacts.

Module AggWitness.

Import Dict Agg AggSamples.
Local Open Scope Z_scope.
Local Open Scope string_scope.

Lemma aggregate_windows_half_open_witness :
  last_valid (col group_730 "release_date") = Time (3 * DAY_NS) /\
  game_row 30 7 30 (Num 730) group_730 = Some row_730 /\
  (forall x, In x (pre_release_data (3 * DAY_NS) 30 group_730) <->
     In x group_730 /\
     exists t, ts_of x = Some t /\ 3 * DAY_NS - 30 * DAY_NS <= t < 3 * DAY_NS).
Proof.
  assert (H1 : last_valid (col group_730 "release_date") = Time (3 * DAY_NS))
    by (vm_compute; reflexivity).
  assert (H2 : game_row 30 7 30 (Num 730) group_730 = Some row_730)
    by (vm_compute; reflexivity).
  split; [exact H1|]. split; [exact H2|].
  exact (proj1 (AggFacts.aggregate_windows_half_open 30 7 30 (3 * DAY_NS) (Num 730)
                  group_730 group_730 row_730 row_730 H1 H1 H2 H2)).
Defined.

Lemma aggregate_excludes_no_release_witness :
  forallb (fun r => negb (cell_eqb (at_ r "app_id") (Num 570))
                    || is_na (at_ r "release_date"))
          (rows (prepare no_parse_time no_parse_num unsorted_frame)) = true /\
  (forall out, In out (fst (aggregate_features no_parse_time no_parse_num
                              unsorted_frame 30 7 30)) ->
   cell_eqb (at_ out "app_id") (Num 570) = false).
Proof.
  assert (H : forallb (fun r => negb (cell_eqb (at_ r "app_id") (Num 570))
                                || is_na (at_ r "release_date"))
                (rows (prepare no_parse_time no_parse_num unsorted_frame)) = true)
    by (vm_compute; reflexivity).
  split; [exact H|].
  exact (AggFacts.aggregate_excludes_no_release no_parse_time no_parse_num
           unsorted_frame 30 7 30 (Num 570) H).
Defined.

Lemma aggregate_latest_values_when_sorted_witness :
  ts_sorted (rows (prepare no_parse_time no_parse_num sorted_frame)) = true /\
  (forall out, In out (fst (aggregate_features no_parse_time no_parse_num
                              sorted_frame 30 7 30)) ->
   exists k,
   (exists r, In r (group_of (rows (prepare no_parse_time no_parse_num sorted_frame)) k) /\
      at_ r "release_date" = at_ out "release_date" /\
      forall r', In r' (group_of (rows (prepare no_parse_time no_parse_num sorted_frame)) k) ->
        at_ r' "release_date" <> NA -> ts_leb r' r = true) /\
   ((exists r, In r (group_of (rows (prepare no_parse_time no_parse_num sorted_frame)) k) /\
      at_ r "name" = at_ out "game_name" /\
      forall r', In r' (group_of (rows (prepare no_parse_time no_parse_num sorted_frame)) k) ->
        at_ r' "name" <> NA -> ts_leb r' r = true) \/
    (forall r, In r (group_of (rows (prepare no_parse_time no_parse_num sorted_frame)) k) ->
       at_ r "name" = NA))).
Proof.
  assert (H : ts_sorted (rows (prepare no_parse_time no_parse_num sorted_frame)) = true)
    by (vm_compute; reflexivity).
  split; [exact H|].
  exact (AggFacts.aggregate_latest_values_when_sorted no_parse_time no_parse_num
           sorted_frame 30 7 30 H).
Defined.

End AggWitness.

Module GovernorWitness.

Import Governor GovernorFacts ClaimSamples.
Local Open Scope list_scope.

Lemma twitter_no_call_during_cooldown_witness :
  twitter_run true tw_init 0 throttled_requests =
    [] ++ mkEv 15000 TwTooManyRequests (mkTw 15000 true 930100)
       :: [mkEv 945000 (TwResponse None) (mkTw 945000 false 930100)] /\
  (930100 <= 945000)%Z.
Proof.
  assert (H : twitter_run true tw_init 0 throttled_requests =
    [] ++ mkEv 15000 TwTooManyRequests (mkTw 15000 true 930100)
       :: [mkEv 945000 (TwResponse None) (mkTw 945000 false 930100)])
    by (vm_compute; reflexivity).
  split; [exact H|].
  exact (twitter_no_call_during_cooldown true tw_init 0 throttled_requests []
           (mkEv 15000 TwTooManyRequests (mkTw 15000 true 930100))
           [mkEv 945000 (TwResponse None) (mkTw 945000 false 930100)]
           H eq_refl (mkEv 945000 (TwResponse None) (mkTw 945000 false 930100))
           (or_introl eq_refl)).
Defined.

End GovernorWitness.

Module ConnectorWitness.

Import Dict Py Retry Orchestrator SteamConn TwitchConn.

Lemma steam_make_request_first_success_witness :
  (1 < 3)%nat /\
  (forall j, (j < 1)%nat ->
     request_fails (if Nat.eqb j 0 then ConnectionError else Response 200 (PDict [("ok", PBool true)])) = true) /\
  request_fails (Response 200 (PDict [("ok", PBool true)])) = false /\
  steam_make_request (fun i => if Nat.eqb i 0 then ConnectionError
                               else Response 200 (PDict [("ok", PBool true)])) =
    (PDict [("ok", PBool true)], 2%nat).
Proof.
  assert (H1 : (1 < 3)%nat) by lia.
  assert (H2 : forall j, (j < 1)%nat ->
     request_fails (if Nat.eqb j 0 then ConnectionError else Response 200 (PDict [("ok", PBool true)])) = true).
  { intros j Hj. replace j with 0%nat by lia. reflexivity. }
  assert (H3 : request_fails (Response 200 (PDict [("ok", PBool true)])) = false) by reflexivity.
  split; [exact H1|split; [exact H2|split; [exact H3|]]].
  exact (RequestFacts.steam_make_request_first_success
           (fun i => if Nat.eqb i 0 then ConnectionError
                     else Response 200 (PDict [("ok", PBool true)])) 1 H1 H2 H3).
Defined.



Lemma access_token_reused_until_expiry_witness :
  truthy (access_token token_init) && negb (Qle_bool (token_expiry_time token_init) 0) = false /\
  truthy (PStr "tok") = true /\
  (let st1 := snd (fst (_get_access_token true 0 (TokenOk (PStr "tok") (Some 3600)) token_init)) in
   (100 < 0 + 3600 - 60 -> _get_access_token true 100 TokenRequestFails st1 = (PStr "tok", st1, false)) /\
   (0 + 3600 - 60 <= 100 -> snd (_get_access_token true 100 TokenRequestFails st1) = true))%Q.
Proof.
  assert (H1 : truthy (access_token token_init) && negb (Qle_bool (token_expiry_time token_init) 0) = false)
    by reflexivity.
  assert (H2 : truthy (PStr "tok") = true) by reflexivity.
  split; [exact H1|split; [exact H2|]].
  exact (TwitchFacts.access_token_reused_until_expiry token_init 0 3600 (PStr "tok")
           true 100 TokenRequestFails H1 H2).
Defined.


End ConnectorWitness.
